(** * fusion-bmt frontend: action form, question/answer panel, nomination view

    A shallow embedding of the three TypeScript components

      - [ActionCreateForm]       (validators, submit handler, validity effects)
      - [QuestionAndAnswerForm]  (the two answer-edit callbacks)
      - [NominationView]         (role gates, render branches, cache update)

    React state is passed explicitly: a render sees a snapshot of the state,
    an event handler queues updates against it and records the calls it makes
    to the callbacks it received as props.  JavaScript objects whose shape is
    fixed by an object literal are records; objects that are spread
    ([{...answer, k: v}]) are finite maps from property names to values. *)

From stdpp Require Import gmap strings list fin_maps.
From Stdlib Require Import ZArith.

Open Scope string_scope.
Open Scope list_scope.

(** ** api/models *)

(** [Date] values are compared and copied only; they are kept as the number
    of milliseconds since the epoch. *)
Definition Date := Z.

(** Modelled from the spec: enum [Role] of api/models, which is not part of
    the sources.  The source's doc comments and the spec name the members
    [Facilitator] and [OrganizationLead]; every other member is kept under
    its name as [OtherRole]. *)
Inductive Role := Facilitator | OrganizationLead | OtherRole (name : string).

(** Modelled from the spec: enum [Progression] of api/models, an ordered
    list of stages whose first is [Nomination]; the later stages are kept
    under their names. *)
Inductive Progression := Nomination | LaterStage (name : string).

(** [Priority] has the three members the form's [Select] lists. *)
Inductive Priority := High | Medium | Low.

(** Modelled from the spec: enums [Organization] and [Barrier] of
    api/models are string enums that the components only pass on. *)
Definition Organization := string.
Definition Barrier := string.

Global Instance Role_eq_dec : EqDecision Role.
Proof. solve_decision. Defined.
Global Instance Progression_eq_dec : EqDecision Progression.
Proof. solve_decision. Defined.
Global Instance Priority_eq_dec : EqDecision Priority.
Proof. solve_decision. Defined.

(** Modelled from the spec: the interfaces [Participant], [Evaluation],
    [Question] and [Action] of api/models are not part of the sources.  Each
    record has the fields the spec's data model lists, which are the fields
    the components read or write. *)
Module Participant.
Record t := mk {
  id : string;
  azureUniqueId : string;
  role : Role;
  organization : Organization
}.
Global Instance eq_dec : EqDecision t.
Proof. solve_decision. Defined.
End Participant.

Module Evaluation.
Record t := mk {
  id : string;
  name : string;
  progression : Progression;
  participants : list Participant.t
}.
End Evaluation.

Module Question.
Record t := mk {
  id : string;
  text : string;
  supportNotes : string;
  barrier : Barrier;
  organization : Organization;
  evaluation : Evaluation.t
}.
End Question.

(** The notes of an action are created elsewhere; the form only ever builds
    the empty list of them. *)
Definition Note := string.

(** [assignedTo] holds what the form's [assignedTo] constant holds, a
    participant or [undefined]. *)
Module Action.
Record t := mk {
  id : string;
  title : string;
  assignedTo : option Participant.t;
  description : string;
  priority : Priority;
  dueDate : Date;
  onHold : bool;
  createDate : Date;
  notes : list Note;
  question : Question.t
}.
End Action.

(** [Array.prototype.find]: the first element that satisfies the predicate,
    [undefined] (here [None]) when there is none. *)
Definition find {A} (l : list A) (p : A -> bool) : option A := List.find p l.

(** [a.azureUniqueId === x] for [x : string | undefined]. *)
Definition azureUniqueId_is (x : option string) (a : Participant.t) : bool :=
  bool_decide (Some (Participant.azureUniqueId a) = x).

(** ** components/Action/ActionCreateForm *)

Module ActionCreateForm.

(** [Exclude<TextFieldProps['variant'], undefined | "warning">]: the three
    string literals "default", "error" and "success". *)
Inductive Validity := Default | Error | Success.

Global Instance Validity_eq_dec : EqDecision Validity.
Proof. solve_decision. Defined.

Definition checkIfTitleValid (title : string) : bool :=
  (0 <? String.length title)%nat.

Definition checkIfParticipantValid (participant : option Participant.t) : bool :=
  match participant with
  | Some _ => true
  | None => false
  end.

(** The data props.  [possibleAssigneesDetails] only feeds the options of
    the dropdown, whose keys arrive as [AssigneeSelect] events below; of the
    two callback props, the calls to [onActionCreate] are recorded by the
    handlers and [onCancelClick] is the parent's own. *)
Record Props := mkProps {
  connectedQuestion : Question.t;
  possibleAssignees : list Participant.t
}.

(** The [useState] cells of the component. *)
Record State := mkState {
  title : string;
  titleValidity : Validity;
  assignedToId : option string;
  assignedToValidity : Validity;
  dueDate : Date;
  priority : Priority;
  description : string
}.

(** The state after mounting at time [now]. *)
Definition initialState (now : Date) : State :=
  {| title := "";
     titleValidity := Default;
     assignedToId := None;
     assignedToValidity := Default;
     dueDate := now;
     priority := High;
     description := "" |}.

(** [const assignedTo = possibleAssignees.find(a => a.azureUniqueId === assignedToId)],
    recomputed by every render. *)
Definition assignedTo (props : Props) (s : State) : option Participant.t :=
  find (possibleAssignees props) (azureUniqueId_is (assignedToId s)).

(** *** Handlers

    A handler closes over the render's snapshot of props and state.  Running
    it yields the queued state updates, applied in order to the pending
    state, and the list of [onActionCreate] calls it made. *)
Definition Handler (A : Type) : Type := State -> A * State * list Action.t.

Global Instance Handler_ret : MRet Handler :=
  fun A (a : A) pending => (a, pending, []).

Global Instance Handler_bind : MBind Handler :=
  fun A B (k : A -> Handler B) (m : Handler A) pending =>
    let '(a, pending1, calls1) := m pending in
    let '(b, pending2, calls2) := k a pending1 in
    (b, pending2, calls1 ++ calls2).

Definition when (b : bool) (m : Handler unit) : Handler unit :=
  if b then m else mret tt.

Definition setTitle (v : string) : Handler unit := fun p =>
  (tt, {| title := v; titleValidity := titleValidity p;
          assignedToId := assignedToId p; assignedToValidity := assignedToValidity p;
          dueDate := dueDate p; priority := priority p; description := description p |}, []).

Definition setTitleValidity (v : Validity) : Handler unit := fun p =>
  (tt, {| title := title p; titleValidity := v;
          assignedToId := assignedToId p; assignedToValidity := assignedToValidity p;
          dueDate := dueDate p; priority := priority p; description := description p |}, []).

Definition setAssignedToId (v : option string) : Handler unit := fun p =>
  (tt, {| title := title p; titleValidity := titleValidity p;
          assignedToId := v; assignedToValidity := assignedToValidity p;
          dueDate := dueDate p; priority := priority p; description := description p |}, []).

Definition setAssignedToValidity (v : Validity) : Handler unit := fun p =>
  (tt, {| title := title p; titleValidity := titleValidity p;
          assignedToId := assignedToId p; assignedToValidity := v;
          dueDate := dueDate p; priority := priority p; description := description p |}, []).

Definition setDueDate (v : Date) : Handler unit := fun p =>
  (tt, {| title := title p; titleValidity := titleValidity p;
          assignedToId := assignedToId p; assignedToValidity := assignedToValidity p;
          dueDate := v; priority := priority p; description := description p |}, []).

Definition setPriority (v : Priority) : Handler unit := fun p =>
  (tt, {| title := title p; titleValidity := titleValidity p;
          assignedToId := assignedToId p; assignedToValidity := assignedToValidity p;
          dueDate := dueDate p; priority := v; description := description p |}, []).

Definition setDescription (v : string) : Handler unit := fun p =>
  (tt, {| title := title p; titleValidity := titleValidity p;
          assignedToId := assignedToId p; assignedToValidity := assignedToValidity p;
          dueDate := dueDate p; priority := priority p; description := v |}, []).

(** The [onActionCreate] prop: the call is recorded with its argument. *)
Definition onActionCreate (action : Action.t) : Handler unit := fun p =>
  (tt, p, [action]).

(** Runs a handler of the render that saw [s]: the state of the next render
    and the calls made. *)
Definition run (h : Handler unit) (s : State) : State * list Action.t :=
  let '(_, s', calls) := h s in (s', calls).

(** [now] is the value of [new Date()] when the action object is built. *)
Definition onLocalCreateClick (props : Props) (s : State) (now : Date) : Handler unit :=
  let isTitleValid := checkIfTitleValid (title s) in
  let isParticipantValid := checkIfParticipantValid (assignedTo props s) in
  if negb isTitleValid || negb isParticipantValid then
    when (negb isTitleValid) (setTitleValidity Error) ;;
    when (negb isParticipantValid) (setAssignedToValidity Error)
  else
    let action : Action.t :=
      {| Action.id := "";
         Action.title := title s;
         Action.assignedTo := assignedTo props s;
         Action.description := description s;
         Action.priority := priority s;
         Action.dueDate := dueDate s;
         Action.onHold := false;
         Action.createDate := now;
         Action.notes := [];
         Action.question := connectedQuestion props |} in
    onActionCreate action.

(** The bodies of the two [useEffect] hooks. *)
Definition titleEffect (s : State) : Handler unit :=
  if bool_decide (titleValidity s = Error) then
    when (checkIfTitleValid (title s)) (setTitleValidity Success)
  else if bool_decide (titleValidity s = Success) then
    when (negb (checkIfTitleValid (title s))) (setTitleValidity Error)
  else mret tt.

Definition assignedToEffect (props : Props) (s : State) : Handler unit :=
  if bool_decide (assignedToValidity s = Error) then
    when (checkIfParticipantValid (assignedTo props s)) (setAssignedToValidity Success)
  else if bool_decide (assignedToValidity s = Success) then
    when (negb (checkIfParticipantValid (assignedTo props s))) (setAssignedToValidity Error)
  else mret tt.

(** *** The mounted component

    Between two events React re-renders the component and runs the effects
    whose dependencies changed.  The order in which user events, effect
    runs and re-renders with new props reach the component is left open
    here: each is an event, and every schedule of React is one of the
    event lists below. *)
Record Instance := mkInstance { props : Props; state : State }.

Inductive Event :=
| TitleChange (value : string)
| AssigneeSelect (key : string)
| DueDateChange (newDate : option Date) (now : Date)
| PrioritySelect (key : Priority)
| DescriptionChange (value : string)
| CreateClick (now : Date)
| CancelClick
| RunTitleEffect
| RunAssignedToEffect
| Rerender (props' : Props).

(** What each event runs, as wired up in the JSX. *)
Definition handlerOf (i : Instance) (e : Event) : Handler unit :=
  match e with
  | TitleChange value => setTitle value
  | AssigneeSelect key => setAssignedToId (Some key)
  | DueDateChange newDate now =>
      setDueDate (match newDate with Some d => d | None => now end)
  | PrioritySelect key => setPriority key
  | DescriptionChange value => setDescription value
  | CreateClick now => onLocalCreateClick (props i) (state i) now
  | CancelClick => mret tt
  | RunTitleEffect => titleEffect (state i)
  | RunAssignedToEffect => assignedToEffect (props i) (state i)
  | Rerender _ => mret tt
  end.

Definition step (i : Instance) (e : Event) : Instance * list Action.t :=
  let '(s', calls) := run (handlerOf i e) (state i) in
  ({| props := match e with Rerender props' => props' | _ => props i end;
      state := s' |}, calls).

Fixpoint steps (i : Instance) (es : list Event) : Instance * list Action.t :=
  match es with
  | [] => (i, [])
  | e :: es' =>
      let '(i1, calls1) := step i e in
      let '(i2, calls2) := steps i1 es' in
      (i2, calls1 ++ calls2)
  end.

Definition mount (props : Props) (now : Date) : Instance :=
  {| props := props; state := initialState now |}.

Definition isCreateClick (e : Event) : bool :=
  match e with CreateClick _ => true | _ => false end.

Definition titleFails (i : Instance) : bool :=
  negb (checkIfTitleValid (title (state i))).

Definition assignedToFails (i : Instance) : bool :=
  negb (checkIfParticipantValid (assignedTo (props i) (state i))).

(** Whether some Create click of the event list finds the field failing. *)
Fixpoint failedSubmit (fails : Instance -> bool) (i : Instance) (es : list Event) : bool :=
  match es with
  | [] => false
  | e :: es' =>
      (isCreateClick e && fails i) || failedSubmit fails (fst (step i e)) es'
  end.

(** The state machine of one field as the specification words it:
    default -> error on a failed submit, error -> success on a later
    correction, success -> error on a later invalidation. *)
Inductive Stimulus := Submit | Reactive | Unrelated.

Definition specFieldMachine (st : Stimulus) (valid : bool) (v : Validity) : Validity :=
  match st, v, valid with
  | Submit, _, false => Error
  | Reactive, Error, true => Success
  | Reactive, Success, false => Error
  | _, _, _ => v
  end.

Definition titleStimulus (e : Event) : Stimulus :=
  match e with
  | CreateClick _ => Submit
  | RunTitleEffect => Reactive
  | _ => Unrelated
  end.

Definition assignedToStimulus (e : Event) : Stimulus :=
  match e with
  | CreateClick _ => Submit
  | RunAssignedToEffect => Reactive
  | _ => Unrelated
  end.

End ActionCreateForm.

(** ** components/QuestionAndAnswer/QuestionAndAnswerForm *)

Module QuestionAndAnswerForm.

(** The values an object property can hold; [JRef] is a reference to another
    object (the answer's question, its author, ...). *)
Inductive JSValue :=
| JUndefined
| JNull
| JBool (b : bool)
| JNumber (n : Z)
| JString (s : string)
| JRef (address : nat).

Global Instance JSValue_eq_dec : EqDecision JSValue.
Proof. solve_decision. Defined.

(** An [Answer] at run time is an object: its own enumerable properties, by
    name.  The interface of api/models fixes which names occur; the panel
    reads [severity] and [text] and copies the rest. *)
Abbreviation Answer := (gmap string JSValue).

(** Modelled from the spec: enum [Severity] of api/models, a string enum. *)
Definition Severity := string.

(** [{ ...o, [key]: value }]: a fresh object with the properties of [o], and
    [key] set to [value]. *)
Definition spreadWith (o : gmap string JSValue) (key : string) (value : JSValue)
  : gmap string JSValue :=
  <[key := value]> o.

(** The data props; [savingState] only feeds the save indicator. *)
Record Props := mkProps {
  questionNumber : Z;
  question : Question.t;
  answer : Answer;
  disabled : bool
}.

(** The two callbacks the panel hands to its sub-forms.  Each returns the
    calls it makes to the [onAnswerChange] prop, with their arguments. *)
Definition onSeveritySelected (props : Props) (severity : Severity) : list Answer :=
  [spreadWith (answer props) "severity" (JString severity)].

Definition onMarkdownChange (props : Props) (text : string) : list Answer :=
  [spreadWith (answer props) "text" (JString text)].

End QuestionAndAnswerForm.

(** ** utils/RoleBasedAccess *)

Module RoleBasedAccess.

(** Modelled from the spec: [participantCanProgressEvaluation] of
    utils/RoleBasedAccess is not part of the sources.  The doc comment of
    [disableProgression] and the spec give it as: Facilitators and
    OrganizationLeads. *)
Definition participantCanProgressEvaluation (role : Role) : bool :=
  match role with
  | Facilitator | OrganizationLead => true
  | OtherRole _ => false
  end.

(** Modelled from the spec: [participantCanAddParticipant] of
    utils/RoleBasedAccess is not part of the sources.  The doc comment of
    [disableAddParticipant] and the spec give it as: Facilitators and
    OrganizationLeads. *)
Definition participantCanAddParticipant (role : Role) : bool :=
  match role with
  | Facilitator | OrganizationLead => true
  | OtherRole _ => false
  end.

End RoleBasedAccess.

(** ** views/Evaluation/Nomination/NominationView *)

Module NominationView.

(** [ApolloError] is only tested for presence. *)
Record ApolloError := mkApolloError { message : string }.

(** What the hooks called at the top of the component return to a render. *)
Record Hooks := mkHooks {
  panelOpen : bool;
  errorMutation : option ApolloError;
  loadingQuery : bool;
  participants : option (list Participant.t);
  errorQuery : option ApolloError;
  azureUniqueId : string
}.

(** The element tree a render returns.  [ErrorTextArea msg] is the [div]
    holding a [TextArea] whose value is [apiErrorMessage(msg)]. *)
Record Page := mkPage {
  evaluationTitle : string;
  finishNominationDisabled : bool;
  addPersonDisabled : bool;
  tableParticipants : list Participant.t;
  dialogOpen : bool;
  currentNominees : list Participant.t
}.

Inductive Element :=
| LoadingText
| ErrorTextArea (msg : string)
| Loaded (page : Page).

(** The [loggedInUser] constant that both gates compute: the first
    participant of the evaluation with the user's [azureUniqueId]. *)
Definition loggedInUser (evaluation : Evaluation.t) (azureUniqueId : string)
  : option Participant.t :=
  find (Evaluation.participants evaluation)
       (fun p => bool_decide (Participant.azureUniqueId p = azureUniqueId)).

(** The same evaluation at another stage. *)
Definition atProgression (evaluation : Evaluation.t) (progression : Progression)
  : Evaluation.t :=
  {| Evaluation.id := Evaluation.id evaluation;
     Evaluation.name := Evaluation.name evaluation;
     Evaluation.progression := progression;
     Evaluation.participants := Evaluation.participants evaluation |}.

Section RoleGates.

(** The two imports from utils/RoleBasedAccess. *)
Variable participantCanProgressEvaluation : Role -> bool.
Variable participantCanAddParticipant : Role -> bool.

Definition disableProgression (evaluation : Evaluation.t) (azureUniqueId : string) : bool :=
  if bool_decide (Evaluation.progression evaluation <> Nomination) then true
  else
    let loggedInUser :=
      find (Evaluation.participants evaluation)
           (fun p => bool_decide (Participant.azureUniqueId p = azureUniqueId)) in
    match loggedInUser with
    | None => true
    | Some loggedInUser =>
        negb (participantCanProgressEvaluation (Participant.role loggedInUser))
    end.

Definition disableAddParticipant (evaluation : Evaluation.t) (azureUniqueId : string) : bool :=
  let loggedInUser :=
    find (Evaluation.participants evaluation)
         (fun p => bool_decide (Participant.azureUniqueId p = azureUniqueId)) in
  match loggedInUser with
  | None => true
  | Some loggedInUser =>
      negb (participantCanAddParticipant (Participant.role loggedInUser))
  end.

Definition render (evaluation : Evaluation.t) (h : Hooks) : Element :=
  if loadingQuery h then LoadingText
  else
    match errorMutation h with
    | Some _ => ErrorTextArea "Could not add participant"
    | None =>
        match errorQuery h, participants h with
        | None, Some participants =>
            Loaded {| evaluationTitle := Evaluation.name evaluation;
                      finishNominationDisabled :=
                        disableProgression evaluation (azureUniqueId h);
                      addPersonDisabled :=
                        disableAddParticipant evaluation (azureUniqueId h);
                      tableParticipants := participants;
                      dialogOpen := panelOpen h;
                      currentNominees := participants |}
        | _, _ => ErrorTextArea "Could not load participants"
        end
    end.

End RoleGates.

(** *** The Apollo cache, as far as [useCreateParticipantMutation] and
    [useParticipantsQuery] use it

    The cache is normalised: objects are stored under their cache id, and a
    field that holds objects holds references to them.  The fields of the
    root query object are kept in insertion order under their store field
    name, which is the field's name together with its arguments. *)
Inductive Reference := makeReference (__ref : string).

Definition __ref (r : Reference) : string :=
  match r with makeReference id => id end.

Record StoreFieldName := mkStoreFieldName {
  fieldName : string;
  args : string
}.

Global Instance Reference_eq_dec : EqDecision Reference.
Proof. solve_decision. Defined.
Global Instance StoreFieldName_eq_dec : EqDecision StoreFieldName.
Proof. solve_decision. Defined.

Record Cache := mkCache {
  entities : gmap string Participant.t;
  rootQuery : list (StoreFieldName * list Reference)
}.

Definition CacheOp (A : Type) : Type := Cache -> A * Cache.

Global Instance CacheOp_ret : MRet CacheOp :=
  fun A (a : A) c => (a, c).

Global Instance CacheOp_bind : MBind CacheOp :=
  fun A B (k : A -> CacheOp B) (m : CacheOp A) c =>
    let '(a, c1) := m c in k a c1.

(** [cache.writeFragment({ id, data, fragment })] stores [data], which holds
    the fields of the fragment, under the cache id [id] and returns the
    reference to it. *)
Definition writeFragment (id : string) (data : Participant.t) : CacheOp Reference :=
  fun c =>
    (makeReference id,
     {| entities := <[id := data]> (entities c); rootQuery := rootQuery c |}).

(** [cache.modify({ fields: { [name]: modifier } })]: without an [id] it
    works on the root query object, and calls [modifier] on the value of
    every stored field whose field name is [name], whatever its arguments. *)
Fixpoint modifyFields (name : string)
    (modifier : list Reference -> CacheOp (list Reference))
    (fields : list (StoreFieldName * list Reference))
  : CacheOp (list (StoreFieldName * list Reference)) :=
  match fields with
  | [] => mret []
  | (k, v) :: rest =>
      v' ← (if bool_decide (fieldName k = name) then modifier v else mret v);
      rest' ← modifyFields name modifier rest;
      mret ((k, v') :: rest')
  end.

Definition modify (name : string)
    (modifier : list Reference -> CacheOp (list Reference)) : CacheOp unit :=
  fun c =>
    let '(fields, c') := modifyFields name modifier (rootQuery c) c in
    (tt, {| entities := entities c'; rootQuery := fields |}).

(** The modifier of the [participants] field inside [update]: it writes the
    created participant as a fragment and returns the existing references
    followed by the new one.  ([modify] never calls a modifier on a missing
    field, so the parameter's default value is not used.) *)
Definition participantsModifier (createParticipant : Participant.t)
    (existingParticipants : list Reference) : CacheOp (list Reference) :=
  newParticipantRef ←
    writeFragment (Participant.id createParticipant) createParticipant;
  mret (existingParticipants ++ [newParticipantRef]).

(** The [update] option passed to [useMutation]; [createParticipant] is the
    [data.createParticipant] of the mutation's result. *)
Definition update (createParticipant : Participant.t) : CacheOp unit :=
  modify "participants" (participantsModifier createParticipant).

(** The requests that go over the network. *)
Inductive Request :=
| CreateParticipantRequest
    (azureUniqueId evaluationId : string) (organization : Organization) (role : Role)
| ParticipantsRequest (evaluationId : string).

(** The options object passed to [useMutation]: it has an [update] and
    names no query to refetch. *)
Record MutationOptions := mkMutationOptions {
  optUpdate : Participant.t -> CacheOp unit;
  optRefetchQueries : list Request
}.

Definition createParticipantOptions : MutationOptions :=
  {| optUpdate := update; optRefetchQueries := [] |}.

Record Client := mkClient {
  cache : Cache;
  sent : list Request
}.

(** [createParticipant(azureUniqueId, evaluationId, organization, role)]
    sends the mutation with these variables. *)
Definition createParticipant
    (azureUniqueId evaluationId : string) (organization : Organization) (role : Role)
    (cl : Client) : Client :=
  {| cache := cache cl;
     sent := sent cl ++ [CreateParticipantRequest azureUniqueId evaluationId organization role] |}.

(** The [onNomineeSelected] callback of the component, handed to the
    add-nominee dialog. *)
Definition onNomineeSelected (evaluation : Evaluation.t)
    (azureUniqueId : string) (role : Role) (organization : Organization)
    (cl : Client) : Client :=
  createParticipant azureUniqueId (Evaluation.id evaluation) organization role cl.

(** The cache id the client gives an object that has a type name and an id:
    the two joined by a colon.  The objects here are participants. *)
Definition identify (data : Participant.t) : string :=
  ("Participant:" ++ Participant.id data)%string.

(** The client's own write of a mutation's result: the returned object is
    stored under its cache id.  (The reference to it goes on the root
    mutation object, which no query reads and which is left out here.) *)
Definition writeResult (data : Participant.t) : CacheOp unit :=
  fun c =>
    (tt, {| entities := <[identify data := data]> (entities c);
            rootQuery := rootQuery c |}).

(** What the client does when the mutation succeeds with [data]: it writes
    the result into the cache, then runs the [update] option on the cache,
    and sends the queries the options ask to refetch. *)
Definition mutationSucceeded (options : MutationOptions) (data : Participant.t)
    (cl : Client) : Client :=
  {| cache := ((writeResult data ;; optUpdate options data) (cache cl)).2;
     sent := sent cl ++ optRefetchQueries options |}.

(** The store field of [participants(where: {evaluation: {id: {eq: evaluationId}}})];
    the arguments are identified by the evaluation id. *)
Definition participantsField (evaluationId : string) : StoreFieldName :=
  {| fieldName := "participants"; args := evaluationId |}.

Fixpoint lookupField (k : StoreFieldName) (fields : list (StoreFieldName * list Reference))
  : option (list Reference) :=
  match fields with
  | [] => None
  | (k', v) :: rest => if bool_decide (k' = k) then Some v else lookupField k rest
  end.

(** [data?.participants] of [useParticipantsQuery], read from the cache: the
    references of the field, each resolved to the object stored under it;
    [None] when the field or one of the objects is missing. *)
Definition readParticipants (evaluationId : string) (c : Cache)
  : option (list Participant.t) :=
  refs ← lookupField (participantsField evaluationId) (rootQuery c);
  mapM (fun r => entities c !! __ref r) refs.

End NominationView.

(** ** Sample data

    One evaluation with three participants, a question, and some states of
    the action form; the examples below run the code on them. *)

Module Samples.

Definition alice : Participant.t :=
  {| Participant.id := "p-1"; Participant.azureUniqueId := "oid-alice";
     Participant.role := Facilitator; Participant.organization := "Engineering" |}.

Definition bob : Participant.t :=
  {| Participant.id := "p-2"; Participant.azureUniqueId := "oid-bob";
     Participant.role := OtherRole "Participant"; Participant.organization := "Operations" |}.

Definition carol : Participant.t :=
  {| Participant.id := "p-3"; Participant.azureUniqueId := "oid-carol";
     Participant.role := OrganizationLead; Participant.organization := "Commissioning" |}.

Definition dave : Participant.t :=
  {| Participant.id := "p-4"; Participant.azureUniqueId := "oid-dave";
     Participant.role := OtherRole "Participant"; Participant.organization := "Engineering" |}.

Definition evaluation : Evaluation.t :=
  {| Evaluation.id := "e-1"; Evaluation.name := "Platform A";
     Evaluation.progression := Nomination;
     Evaluation.participants := [alice; bob; carol] |}.

Definition question : Question.t :=
  {| Question.id := "q-1"; Question.text := "Is the barrier tested?";
     Question.supportNotes := "Check the test log"; Question.barrier := "GM";
     Question.organization := "Engineering"; Question.evaluation := evaluation |}.

Definition formProps : ActionCreateForm.Props :=
  {| ActionCreateForm.connectedQuestion := question;
     ActionCreateForm.possibleAssignees := [alice; bob] |}.

(** Title typed, Alice picked. *)
Definition filled : ActionCreateForm.State :=
  {| ActionCreateForm.title := "Replace valve";
     ActionCreateForm.titleValidity := ActionCreateForm.Default;
     ActionCreateForm.assignedToId := Some "oid-alice";
     ActionCreateForm.assignedToValidity := ActionCreateForm.Default;
     ActionCreateForm.dueDate := 1700000000000%Z;
     ActionCreateForm.priority := Medium;
     ActionCreateForm.description := "Valve 12 leaks" |}.

(** Title typed, and Carol picked, who is not among the possible assignees. *)
Definition staleAssignee : ActionCreateForm.State :=
  {| ActionCreateForm.title := "Replace valve";
     ActionCreateForm.titleValidity := ActionCreateForm.Default;
     ActionCreateForm.assignedToId := Some "oid-carol";
     ActionCreateForm.assignedToValidity := ActionCreateForm.Default;
     ActionCreateForm.dueDate := 1700000000000%Z;
     ActionCreateForm.priority := High;
     ActionCreateForm.description := "" |}.

(** Alice picked, no title. *)
Definition untitled : ActionCreateForm.State :=
  {| ActionCreateForm.title := "";
     ActionCreateForm.titleValidity := ActionCreateForm.Default;
     ActionCreateForm.assignedToId := Some "oid-alice";
     ActionCreateForm.assignedToValidity := ActionCreateForm.Default;
     ActionCreateForm.dueDate := 1700000000000%Z;
     ActionCreateForm.priority := High;
     ActionCreateForm.description := "" |}.

Definition mounted : ActionCreateForm.Instance :=
  ActionCreateForm.mount formProps 1700000000000%Z.

(** A title is typed, Create is clicked without an assignee, the effects
    run, and the title is emptied again. *)
Definition titleNeverFails : list ActionCreateForm.Event :=
  [ ActionCreateForm.TitleChange "Replace valve";
    ActionCreateForm.RunTitleEffect;
    ActionCreateForm.CreateClick 1700000001000%Z;
    ActionCreateForm.RunTitleEffect;
    ActionCreateForm.RunAssignedToEffect;
    ActionCreateForm.TitleChange "";
    ActionCreateForm.RunTitleEffect ].

(** Create is clicked on the empty form, then the title is typed, an
    assignee is picked, and the title is emptied again; the effects run
    after each render. *)
Definition fullCycle : list ActionCreateForm.Event :=
  [ ActionCreateForm.CreateClick 1700000001000%Z;
    ActionCreateForm.RunTitleEffect;
    ActionCreateForm.TitleChange "R";
    ActionCreateForm.RunTitleEffect;
    ActionCreateForm.AssigneeSelect "oid-bob";
    ActionCreateForm.RunAssignedToEffect;
    ActionCreateForm.TitleChange "";
    ActionCreateForm.RunTitleEffect ].

(** The two validities after each prefix of a list of events. *)
Fixpoint validities (i : ActionCreateForm.Instance) (es : list ActionCreateForm.Event)
  : list (ActionCreateForm.Validity * ActionCreateForm.Validity) :=
  match es with
  | [] => []
  | e :: es' =>
      let i' := (ActionCreateForm.step i e).1 in
      (ActionCreateForm.titleValidity (ActionCreateForm.state i'),
       ActionCreateForm.assignedToValidity (ActionCreateForm.state i'))
        :: validities i' es'
  end.

(** Create is clicked with Alice picked and no title. *)
Definition assigneeNeverFails : list ActionCreateForm.Event :=
  [ ActionCreateForm.AssigneeSelect "oid-alice";
    ActionCreateForm.RunAssignedToEffect;
    ActionCreateForm.CreateClick 1700000001000%Z;
    ActionCreateForm.RunTitleEffect;
    ActionCreateForm.RunAssignedToEffect ].

(** An answer as the API delivers it. *)
Definition answer : gmap string QuestionAndAnswerForm.JSValue :=
  <["id" := QuestionAndAnswerForm.JString "a-1"]>
  (<["progression" := QuestionAndAnswerForm.JString "PREPARATION"]>
  (<["severity" := QuestionAndAnswerForm.JString "LOW"]>
  (<["text" := QuestionAndAnswerForm.JString "Tested in May"]>
  (<["question" := QuestionAndAnswerForm.JRef 7]> ∅)))).

Definition panelProps : QuestionAndAnswerForm.Props :=
  {| QuestionAndAnswerForm.questionNumber := 3;
     QuestionAndAnswerForm.question := question;
     QuestionAndAnswerForm.answer := answer;
     QuestionAndAnswerForm.disabled := false |}.

(** An evaluation in which one user id occurs twice, with different roles. *)
Definition twice : Evaluation.t :=
  {| Evaluation.id := "e-2"; Evaluation.name := "Platform B";
     Evaluation.progression := Nomination;
     Evaluation.participants :=
       [ Participant.mk "p-5" "oid-erin" (OtherRole "Participant") "Operations";
         Participant.mk "p-6" "oid-erin" Facilitator "Operations" ] |}.

Definition failure : NominationView.ApolloError :=
  {| NominationView.message := "Network error" |}.

(** The participant query is in flight while a creation has failed. *)
Definition loadingAfterFailedCreate : NominationView.Hooks :=
  {| NominationView.panelOpen := true;
     NominationView.errorMutation := Some failure;
     NominationView.loadingQuery := true;
     NominationView.participants := None;
     NominationView.errorQuery := None;
     NominationView.azureUniqueId := "oid-alice" |}.

(** A creation has failed, and the participant query has failed too. *)
Definition bothFailed : NominationView.Hooks :=
  {| NominationView.panelOpen := true;
     NominationView.errorMutation := Some failure;
     NominationView.loadingQuery := false;
     NominationView.participants := None;
     NominationView.errorQuery := Some failure;
     NominationView.azureUniqueId := "oid-alice" |}.

Definition loaded : NominationView.Hooks :=
  {| NominationView.panelOpen := false;
     NominationView.errorMutation := None;
     NominationView.loadingQuery := false;
     NominationView.participants := Some [alice; bob; carol];
     NominationView.errorQuery := None;
     NominationView.azureUniqueId := "oid-carol" |}.

(** A cache holding the participant lists of two evaluations and the
    list of the evaluations themselves. *)
Definition cache : NominationView.Cache :=
  {| NominationView.entities :=
       <["Participant:p-1" := alice]>
       (<["Participant:p-2" := bob]>
       (<["Participant:p-3" := carol]> ∅));
     NominationView.rootQuery :=
       [ (NominationView.mkStoreFieldName "evaluations" "",
          []);
         (NominationView.participantsField "e-1",
          [NominationView.makeReference "Participant:p-1";
           NominationView.makeReference "Participant:p-2"]);
         (NominationView.participantsField "e-2",
          [NominationView.makeReference "Participant:p-3"]) ] |}.

Definition client : NominationView.Client :=
  {| NominationView.cache := cache;
     NominationView.sent :=
       [ NominationView.ParticipantsRequest "e-1";
         NominationView.CreateParticipantRequest "oid-dave" "e-1" "Engineering"
           (OtherRole "Participant") ] |}.

End Samples.

(** ** ActionCreateForm: what a render shows *)

(** [PersonDetails] of the fusion library: the two fields the form reads. *)
Module PersonDetails.
Record t := mk {
  name : string;
  azureUniqueId : string
}.
End PersonDetails.

(** An option of a [SearchableDropdown] or [Select]. *)
Module DropdownOption.
Record t (K : Type) := mk {
  title : string;
  key : K;
  isSelected : bool
}.
Arguments mk {K} _ _ _.
Arguments title {K} _.
Arguments key {K} _.
Arguments isSelected {K} _.
End DropdownOption.

Module ActionCreateFormView.

(** [possibleAssigneesDetails.map(personDetails => ({ title, key, isSelected }))] *)
Definition assigneesOptions (possibleAssigneesDetails : list PersonDetails.t)
    (assignedToId : option string) : list (DropdownOption.t string) :=
  map (fun personDetails =>
         {| DropdownOption.title := PersonDetails.name personDetails;
            DropdownOption.key := PersonDetails.azureUniqueId personDetails;
            DropdownOption.isSelected :=
              bool_decide (Some (PersonDetails.azureUniqueId personDetails) = assignedToId) |})
      possibleAssigneesDetails.

(** The options literal of the priority [Select]. *)
Definition priorityOptions (priority : Priority) : list (DropdownOption.t Priority) :=
  [ {| DropdownOption.key := High; DropdownOption.title := "High";
       DropdownOption.isSelected := bool_decide (priority = High) |};
    {| DropdownOption.key := Medium; DropdownOption.title := "Medium";
       DropdownOption.isSelected := bool_decide (priority = Medium) |};
    {| DropdownOption.key := Low; DropdownOption.title := "Low";
       DropdownOption.isSelected := bool_decide (priority = Low) |} ].

(** The props of the controls in the returned JSX that depend on props or
    state.  [titleHelperIcon] says whether the helper icon is the error icon
    (otherwise it is the empty fragment). *)
Record View := mkView {
  titleVariant : ActionCreateForm.Validity;
  titleHelperText : string;
  titleHelperIcon : bool;
  assignedToError : bool;
  assignedToErrorMessage : string;
  assignedToOptions : list (DropdownOption.t string);
  selectedDate : Date;
  prioritySelectOptions : list (DropdownOption.t Priority);
  connectedTo : string;
  questionBarrier : Barrier;
  questionText : string
}.

Definition view (props : ActionCreateForm.Props)
    (possibleAssigneesDetails : list PersonDetails.t)
    (s : ActionCreateForm.State) : View :=
  {| titleVariant := ActionCreateForm.titleValidity s;
     titleHelperText :=
       if bool_decide (ActionCreateForm.titleValidity s = ActionCreateForm.Error)
       then "required" else "";
     titleHelperIcon :=
       bool_decide (ActionCreateForm.titleValidity s = ActionCreateForm.Error);
     assignedToError :=
       bool_decide (ActionCreateForm.assignedToValidity s = ActionCreateForm.Error);
     assignedToErrorMessage := "required";
     assignedToOptions :=
       assigneesOptions possibleAssigneesDetails (ActionCreateForm.assignedToId s);
     selectedDate := ActionCreateForm.dueDate s;
     prioritySelectOptions := priorityOptions (ActionCreateForm.priority s);
     connectedTo :=
       Evaluation.name (Question.evaluation (ActionCreateForm.connectedQuestion props));
     questionBarrier := Question.barrier (ActionCreateForm.connectedQuestion props);
     questionText := Question.text (ActionCreateForm.connectedQuestion props) |}.


End ActionCreateFormView.

(** ** ActionCreateForm under React's schedule

    After a render React runs each effect whose dependency array differs
    from the one of the previous render (every effect after the first
    render), all on the snapshot of that render; when an effect changed the
    state, the component renders again and the same happens, until a render
    whose effects leave the state as it is.  Strings are compared by value.
    [assignedTo] is an object or [undefined] and is compared by identity:
    [sameRef] is that comparison. *)
Module ReactSchedule.

Global Instance State_eq_dec : EqDecision ActionCreateForm.State.
Proof. unfold Date. solve_decision. Defined.

(** A mounted component with the dependencies seen by the last commit:
    [title, titleValidity] for the first effect, [assignedTo] for the
    second. *)
Record Fiber := mkFiber {
  instance : ActionCreateForm.Instance;
  titleDeps : option (string * ActionCreateForm.Validity);
  assignedToDeps : option (option Participant.t)
}.

Section Schedule.

Variable sameRef : option Participant.t -> option Participant.t -> bool.

Definition titleDepsChanged (f : Fiber) : bool :=
  match titleDeps f with
  | None => true
  | Some (t, v) =>
      negb (bool_decide (t = ActionCreateForm.title (ActionCreateForm.state (instance f)))
            && bool_decide
                 (v = ActionCreateForm.titleValidity (ActionCreateForm.state (instance f))))
  end.

Definition assignedToDepsChanged (f : Fiber) : bool :=
  match assignedToDeps f with
  | None => true
  | Some a =>
      negb (sameRef a
              (ActionCreateForm.assignedTo (ActionCreateForm.props (instance f))
                 (ActionCreateForm.state (instance f))))
  end.

(** The effects of one commit, in the order of their declaration, both on
    the render's snapshot of the state. *)
Definition commitEffects (f : Fiber) : ActionCreateForm.Handler unit :=
  let i := instance f in
  ActionCreateForm.when (titleDepsChanged f)
    (ActionCreateForm.titleEffect (ActionCreateForm.state i)) ;;
  ActionCreateForm.when (assignedToDepsChanged f)
    (ActionCreateForm.assignedToEffect (ActionCreateForm.props i) (ActionCreateForm.state i)).

Definition commit (f : Fiber) : Fiber :=
  let i := instance f in
  let s := ActionCreateForm.state i in
  {| instance :=
       {| ActionCreateForm.props := ActionCreateForm.props i;
          ActionCreateForm.state := (ActionCreateForm.run (commitEffects f) s).1 |};
     titleDeps := Some (ActionCreateForm.title s, ActionCreateForm.titleValidity s);
     assignedToDeps :=
       Some (ActionCreateForm.assignedTo (ActionCreateForm.props i) s) |}.

(** Render and commit until a commit leaves the state as it is, at most
    [fuel] times. *)
Fixpoint settle (fuel : nat) (f : Fiber) : Fiber :=
  match fuel with
  | 0 => f
  | S fuel' =>
      let f' := commit f in
      if bool_decide (ActionCreateForm.state (instance f')
                      = ActionCreateForm.state (instance f))
      then f' else settle fuel' f'
  end.

(** Three commits are enough (see [dispatch_settled]). *)
Definition renderLoop : Fiber -> Fiber := settle 3.

Definition mountFiber (props : ActionCreateForm.Props) (now : Date) : Fiber :=
  renderLoop {| instance := ActionCreateForm.mount props now;
                titleDeps := None; assignedToDeps := None |}.

(** A user event, or a re-render with new props, followed by React's render
    loop. *)
Definition dispatch (f : Fiber) (e : ActionCreateForm.Event) : Fiber * list Action.t :=
  let '(i', calls) := ActionCreateForm.step (instance f) e in
  (renderLoop {| instance := i'; titleDeps := titleDeps f;
                 assignedToDeps := assignedToDeps f |}, calls).

Fixpoint dispatchAll (f : Fiber) (es : list ActionCreateForm.Event) : Fiber * list Action.t :=
  match es with
  | [] => (f, [])
  | e :: es' =>
      let '(f1, calls1) := dispatch f e in
      let '(f2, calls2) := dispatchAll f1 es' in
      (f2, calls1 ++ calls2)
  end.

End Schedule.

(** A field's validity agrees with the field: shown as error only when the
    field is invalid, as success only when it is valid. *)
Definition agrees (valid : bool) (v : ActionCreateForm.Validity) : Prop :=
  (v = ActionCreateForm.Error -> valid = false) /\
  (v = ActionCreateForm.Success -> valid = true).

Definition titleAgrees (i : ActionCreateForm.Instance) : Prop :=
  agrees (ActionCreateForm.checkIfTitleValid
            (ActionCreateForm.title (ActionCreateForm.state i)))
         (ActionCreateForm.titleValidity (ActionCreateForm.state i)).

Definition assignedToAgrees (i : ActionCreateForm.Instance) : Prop :=
  agrees (ActionCreateForm.checkIfParticipantValid
            (ActionCreateForm.assignedTo (ActionCreateForm.props i)
               (ActionCreateForm.state i)))
         (ActionCreateForm.assignedToValidity (ActionCreateForm.state i)).

(** The dependencies on record are those of the current props and state,
    as they are when the last commit left the state as it was. *)
Definition recorded (f : Fiber) : Prop :=
  titleDeps f =
    Some (ActionCreateForm.title (ActionCreateForm.state (instance f)),
          ActionCreateForm.titleValidity (ActionCreateForm.state (instance f))) /\
  assignedToDeps f =
    Some (ActionCreateForm.assignedTo (ActionCreateForm.props (instance f))
            (ActionCreateForm.state (instance f))).

(** A component at rest: both fields in agreement, and the dependencies of
    the current props and state on record. *)
Definition atRest (f : Fiber) : Prop :=
  titleAgrees (instance f) /\ assignedToAgrees (instance f) /\ recorded f.

End ReactSchedule.

(** ** QuestionAndAnswerForm: what a render shows *)

Module QuestionAndAnswerView.

(** The character of the string literal ['\n']. *)
Definition newline : Ascii.ascii := Ascii.ascii_of_nat 10.

(** [s.split(sep)] for a separator of one character: the pieces of [s]
    between the occurrences of [sep], in order; a string without [sep], the
    empty one included, is its one piece. *)
Fixpoint split (sep : Ascii.ascii) (s : string) : list string :=
  match s with
  | EmptyString => [""]
  | String c rest =>
      if bool_decide (c = sep) then "" :: split sep rest
      else
        match split sep rest with
        | part :: parts => String c part :: parts
        | [] => [String c ""]
        end
  end.

(** [parts.join(sep)] *)
Fixpoint join (sep : string) (parts : list string) : string :=
  match parts with
  | [] => ""
  | [part] => part
  | part :: rest => part ++ sep ++ join sep rest
  end.

(** One [Typography] of the support notes, with its React key. *)
Record SupportNote := mkSupportNote {
  key : string;
  children : string
}.

(** [question.supportNotes.split('\n').map(supportNotePart => ...)] *)
Definition supportNoteParts (question : Question.t) : list SupportNote :=
  map (fun supportNotePart =>
         {| key := Question.id question ++ supportNotePart;
            children := supportNotePart |})
      (split newline (Question.supportNotes question)).

(** The props of the elements in the returned JSX that depend on the
    component's props.  A property the answer object does not have reads as
    [undefined], here [None]; the chip shows [organizationToString] of
    [chipOrganization]. *)
Record View := mkView {
  chipOrganization : Organization;
  number : Z;
  heading : string;
  supportNotes : list SupportNote;
  disable : bool;
  severity : option QuestionAndAnswerForm.JSValue;
  severityDisabled : bool;
  markdown : option QuestionAndAnswerForm.JSValue;
  markdownDisabled : bool
}.

Definition view (props : QuestionAndAnswerForm.Props) : View :=
  {| chipOrganization := Question.organization (QuestionAndAnswerForm.question props);
     number := QuestionAndAnswerForm.questionNumber props;
     heading := Question.text (QuestionAndAnswerForm.question props);
     supportNotes := supportNoteParts (QuestionAndAnswerForm.question props);
     disable := QuestionAndAnswerForm.disabled props;
     severity := QuestionAndAnswerForm.answer props !! "severity";
     severityDisabled := QuestionAndAnswerForm.disabled props;
     markdown := QuestionAndAnswerForm.answer props !! "text";
     markdownDisabled := QuestionAndAnswerForm.disabled props |}.

(** The panel rendered again by a parent that keeps the answer it was last
    handed by [onAnswerChange]. *)
Definition withAnswer (props : QuestionAndAnswerForm.Props)
    (answer : gmap string QuestionAndAnswerForm.JSValue) : QuestionAndAnswerForm.Props :=
  {| QuestionAndAnswerForm.questionNumber := QuestionAndAnswerForm.questionNumber props;
     QuestionAndAnswerForm.question := QuestionAndAnswerForm.question props;
     QuestionAndAnswerForm.answer := answer;
     QuestionAndAnswerForm.disabled := QuestionAndAnswerForm.disabled props |}.

(** The props after the parent has taken in the calls, in order. *)
Definition afterCalls (props : QuestionAndAnswerForm.Props)
    (calls : list (gmap string QuestionAndAnswerForm.JSValue)) : QuestionAndAnswerForm.Props :=
  foldl withAnswer props calls.

End QuestionAndAnswerView.

(** ** NominationView: helpers for stating properties *)

Module NominationViewFacts.

(** The same evaluation with another list of participants. *)
Definition withParticipants (evaluation : Evaluation.t) (l : list Participant.t)
  : Evaluation.t :=
  {| Evaluation.id := Evaluation.id evaluation;
     Evaluation.name := Evaluation.name evaluation;
     Evaluation.progression := Evaluation.progression evaluation;
     Evaluation.participants := l |}.

(** The hooks' results with another result of the participants query. *)
Definition withQueried (h : NominationView.Hooks) (ps : option (list Participant.t))
  : NominationView.Hooks :=
  {| NominationView.panelOpen := NominationView.panelOpen h;
     NominationView.errorMutation := NominationView.errorMutation h;
     NominationView.loadingQuery := NominationView.loadingQuery h;
     NominationView.participants := ps;
     NominationView.errorQuery := NominationView.errorQuery h;
     NominationView.azureUniqueId := NominationView.azureUniqueId h |}.

(** The names of the stored fields of the root query, in order. *)
Definition fieldKeys (c : NominationView.Cache) : list NominationView.StoreFieldName :=
  (NominationView.rootQuery c).*1.

End NominationViewFacts.

(** ** More sample data *)

Module MoreSamples.


(** The question of the samples with three lines of support notes, two of
    them equal. *)
Definition question : Question.t :=
  {| Question.id := "q-1"; Question.text := "Is the barrier tested?";
     Question.supportNotes :=
       String.concat (String QuestionAndAnswerView.newline "")
         ["Check the log"; ""; "Check the log"];
     Question.barrier := "GM";
     Question.organization := "Engineering";
     Question.evaluation := Samples.evaluation |}.

(** Object identity of the possible assignees, taken to be equality of the
    records. *)
Definition sameRecord (a b : option Participant.t) : bool := bool_decide (a = b).

(** A session: Create on the empty form, then a title, then Carol, who is
    not a possible assignee, then Bob, then an empty title again. *)
Definition session : list ActionCreateForm.Event :=
  [ ActionCreateForm.CreateClick 1700000001000%Z;
    ActionCreateForm.TitleChange "Replace valve";
    ActionCreateForm.AssigneeSelect "oid-carol";
    ActionCreateForm.AssigneeSelect "oid-bob";
    ActionCreateForm.CreateClick 1700000002000%Z;
    ActionCreateForm.TitleChange "";
    ActionCreateForm.CreateClick 1700000003000%Z ].

(** A record returned under the id that Bob has in the cache. *)
Definition returnedAsBob : Participant.t :=
  {| Participant.id := "p-2"; Participant.azureUniqueId := "oid-dave";
     Participant.role := OtherRole "Participant";
     Participant.organization := "Engineering" |}.

End MoreSamples.

(** * Properties *)

(** ** Lists and [find] *)

Lemma find_Some_elem {A} (l : list A) (p : A -> bool) (x : A) :
  find l p = Some x -> x ∈ l /\ p x = true.
Proof.
  unfold find. intros H. apply List.find_some in H as [Hin Hp].
  split; [by apply list_elem_of_In | done].
Qed.

Lemma find_None_all {A} (l : list A) (p : A -> bool) :
  find l p = None <-> (forall x, x ∈ l -> p x = false).
Proof.
  unfold find. split.
  - intros H x Hx. apply (List.find_none _ _ H). by apply list_elem_of_In.
  - induction l as [|a l IH]; intros H; [done|]. simpl.
    rewrite (H a) by left. apply IH. intros x Hx. apply H. by right.
Qed.

(** [find] returns the first match: everything before it fails the test. *)
Lemma find_Some_first {A} (l : list A) (p : A -> bool) (x : A) :
  find l p = Some x <->
  exists l1 l2, l = l1 ++ x :: l2 /\ p x = true /\ (forall y, y ∈ l1 -> p y = false).
Proof.
  unfold find. split.
  - induction l as [|a l IH]; [done|]. simpl. destruct (p a) eqn:Ha.
    + intros [= ->]. exists [], l. split; [done|]. split; [done|].
      intros y Hy. by apply elem_of_nil in Hy.
    + intros H. destruct (IH H) as (l1 & l2 & -> & Hx & Hl1).
      exists (a :: l1), l2. split; [done|]. split; [done|].
      intros y [->|Hy]%elem_of_cons; [done | by apply Hl1].
  - intros (l1 & l2 & -> & Hx & Hl1). induction l1 as [|a l1 IH]; simpl.
    + by rewrite Hx.
    + rewrite (Hl1 a) by left. apply IH. intros y Hy. apply Hl1. by right.
Qed.

(** ** ActionCreateForm *)

Section ActionCreateFormProperties.

Import ActionCreateForm.

Lemma checkIfTitleValid_nonempty (s : string) :
  checkIfTitleValid s = true <-> s <> "".
Proof.
  unfold checkIfTitleValid. destruct s as [|c s]; simpl.
  - split; [discriminate | congruence].
  - split; [discriminate | done].
Qed.

Lemma checkIfTitleValid_empty (s : string) :
  checkIfTitleValid s = false <-> s = "".
Proof.
  rewrite <- Bool.not_true_iff_false, checkIfTitleValid_nonempty.
  destruct (decide (s = "")); naive_solver.
Qed.

Lemma checkIfParticipantValid_Some (o : option Participant.t) :
  checkIfParticipantValid o = true <-> is_Some o.
Proof.
  destruct o; simpl; split; intros H; done.
Qed.

Lemma checkIfParticipantValid_None (o : option Participant.t) :
  checkIfParticipantValid o = false <-> o = None.
Proof. destruct o; simpl; split; done. Qed.

(** C8: for every string [s], the title validator returns true if and only
    if the length of [s] is greater than zero; it returns false on the empty
    string and on no other. *)
Theorem checkIfTitleValid_iff_length_pos (s : string) :
  (checkIfTitleValid s = true <-> (String.length s > 0)%nat) /\
  (checkIfTitleValid s = false <-> s = "").
Proof.
  split; [|apply checkIfTitleValid_empty].
  unfold checkIfTitleValid. rewrite Nat.ltb_lt. lia.
Qed.

(** What a Create click does, by the two validators' answers. *)
Lemma onLocalCreateClick_run (props : Props) (s : State) (now : Date) :
  run (onLocalCreateClick props s now) s =
  match checkIfTitleValid (title s), checkIfParticipantValid (assignedTo props s) with
  | true, true =>
      (s, [ {| Action.id := "";
               Action.title := title s;
               Action.assignedTo := assignedTo props s;
               Action.description := description s;
               Action.priority := priority s;
               Action.dueDate := dueDate s;
               Action.onHold := false;
               Action.createDate := now;
               Action.notes := [];
               Action.question := connectedQuestion props |} ])
  | false, true =>
      (mkState (title s) Error (assignedToId s) (assignedToValidity s)
               (dueDate s) (priority s) (description s), [])
  | true, false =>
      (mkState (title s) (titleValidity s) (assignedToId s) Error
               (dueDate s) (priority s) (description s), [])
  | false, false =>
      (mkState (title s) Error (assignedToId s) Error
               (dueDate s) (priority s) (description s), [])
  end.
Proof.
  unfold onLocalCreateClick.
  destruct (checkIfTitleValid (title s)), (checkIfParticipantValid (assignedTo props s));
    destruct s; reflexivity.
Qed.

(** C3: a submission with a non-empty title and a resolved assignee makes
    exactly one call to [onActionCreate]; the action it carries has the
    empty string as id, is not on hold, has no notes, and takes its due date
    and priority (and title, assignee, description) from the form's current
    values.  The form's state is left as it was. *)
Theorem onLocalCreateClick_valid_calls_once
    (props : Props) (s : State) (now : Date) :
  title s <> "" ->
  is_Some (assignedTo props s) ->
  exists action,
    run (onLocalCreateClick props s now) s = (s, [action]) /\
    Action.id action = "" /\
    Action.onHold action = false /\
    Action.notes action = [] /\
    Action.dueDate action = dueDate s /\
    Action.priority action = priority s /\
    Action.title action = title s /\
    Action.assignedTo action = assignedTo props s /\
    Action.description action = description s /\
    Action.createDate action = now /\
    Action.question action = connectedQuestion props.
Proof.
  intros Ht Ha. rewrite onLocalCreateClick_run.
  apply checkIfTitleValid_nonempty in Ht as ->.
  apply checkIfParticipantValid_Some in Ha as ->.
  eexists. split; [reflexivity|]. repeat split.
Qed.

(** C4: a submission with an empty title or without an assignee makes no
    call to [onActionCreate]; each failing field's validity becomes
    [Error], a passing field keeps its validity, and no other cell of the
    form's state changes.  The effect of a failing field leaves it in
    [Error]. *)
Theorem onLocalCreateClick_invalid_blocks
    (props : Props) (s : State) (now : Date) :
  title s = "" \/ assignedTo props s = None ->
  let s' := (run (onLocalCreateClick props s now) s).1 in
  (run (onLocalCreateClick props s now) s).2 = [] /\
  (title s = "" -> titleValidity s' = Error) /\
  (assignedTo props s = None -> assignedToValidity s' = Error) /\
  (title s <> "" -> titleValidity s' = titleValidity s) /\
  (assignedTo props s <> None -> assignedToValidity s' = assignedToValidity s) /\
  (title s', assignedToId s', dueDate s', priority s', description s')
    = (title s, assignedToId s, dueDate s, priority s, description s) /\
  (title s = "" -> (run (titleEffect s') s').1 = s') /\
  (assignedTo props s = None -> (run (assignedToEffect props s') s').1 = s').
Proof.
  intros H. cbv zeta. rewrite onLocalCreateClick_run.
  destruct (checkIfTitleValid (title s)) eqn:Ht;
    destruct (checkIfParticipantValid (assignedTo props s)) eqn:Ha.
  - apply checkIfTitleValid_nonempty in Ht.
    apply checkIfParticipantValid_Some in Ha as [a Ha].
    destruct H; congruence.
  - apply checkIfTitleValid_nonempty in Ht.
    apply checkIfParticipantValid_None in Ha as Ha'.
    simpl. repeat split; try done.
    intros _. unfold assignedToEffect, assignedTo in *. simpl.
    by rewrite Ha'.
  - apply checkIfTitleValid_empty in Ht as Ht'.
    apply checkIfParticipantValid_Some in Ha as [a Ha'].
    simpl. repeat split; try done; try congruence.
    intros _. unfold titleEffect. simpl. by rewrite Ht'.
  - apply checkIfTitleValid_empty in Ht as Ht'.
    apply checkIfParticipantValid_None in Ha as Ha'.
    simpl. repeat split; try done.
    + intros _. unfold titleEffect. simpl. by rewrite Ht'.
    + intros _. unfold assignedToEffect, assignedTo in *. simpl. by rewrite Ha'.
Qed.

(** C10: the assignee is resolved by looking the selected id up in
    [possibleAssignees]: when some element has the selected id, the
    assignee is the first element with that id (the element itself when the
    ids are distinct), it counts as selected, and a submit with a non-empty
    title hands it to [onActionCreate].  So the assignee of every action
    handed to [onActionCreate] is an element of [possibleAssignees], the one
    found under the selected id; and when no element of [possibleAssignees]
    has the selected id, the assignee counts as not selected: nothing is
    handed to [onActionCreate] and the assignee field's validity becomes
    [Error]. *)
Theorem assignedTo_resolved_in_possibleAssignees
    (props : Props) (s : State) (now : Date) :
  (forall action,
     action ∈ (run (onLocalCreateClick props s now) s).2 ->
     exists assignee,
       Action.assignedTo action = Some assignee /\
       assignee ∈ possibleAssignees props /\
       assignedToId s = Some (Participant.azureUniqueId assignee)) /\
  ((forall a, a ∈ possibleAssignees props ->
      assignedToId s <> Some (Participant.azureUniqueId a)) ->
   assignedTo props s = None /\
   checkIfParticipantValid (assignedTo props s) = false /\
   (run (onLocalCreateClick props s now) s).2 = [] /\
   assignedToValidity (run (onLocalCreateClick props s now) s).1 = Error) /\
  (forall p,
     p ∈ possibleAssignees props ->
     assignedToId s = Some (Participant.azureUniqueId p) ->
     exists assignee before after,
       assignedTo props s = Some assignee /\
       possibleAssignees props = before ++ assignee :: after /\
       Participant.azureUniqueId assignee = Participant.azureUniqueId p /\
       (forall a, a ∈ before ->
          Participant.azureUniqueId a <> Participant.azureUniqueId p) /\
       (NoDup (Participant.azureUniqueId <$> possibleAssignees props) -> assignee = p) /\
       checkIfParticipantValid (assignedTo props s) = true /\
       (title s <> "" ->
        exists action,
          (run (onLocalCreateClick props s now) s).2 = [action] /\
          Action.assignedTo action = Some assignee)).
Proof.
  split; [|split].
  - intros action. rewrite onLocalCreateClick_run.
    destruct (checkIfTitleValid (title s));
      destruct (checkIfParticipantValid (assignedTo props s)) eqn:Ha; simpl;
      try (by intros ?%elem_of_nil).
    intros ->%list_elem_of_singleton. simpl.
    apply checkIfParticipantValid_Some in Ha as [a Ha].
    exists a. split; [done|].
    apply find_Some_elem in Ha as [Hin Hid]. split; [done|].
    unfold azureUniqueId_is in Hid. by apply bool_decide_eq_true in Hid.
  - intros Hnone.
    assert (assignedTo props s = None) as Ha.
    { apply find_None_all. intros a Hin. unfold azureUniqueId_is.
      apply bool_decide_eq_false. intros Heq. by apply (Hnone a Hin). }
    rewrite onLocalCreateClick_run, Ha. simpl.
    by destruct (checkIfTitleValid (title s)).
  - intros p Hp Hsel.
    destruct (assignedTo props s) as [q|] eqn:Hq.
    + pose proof Hq as Hfirst. unfold assignedTo in Hfirst.
      apply find_Some_first in Hfirst as (before & after & Hsplit & Hid & Hbefore).
      unfold azureUniqueId_is in Hid. apply bool_decide_eq_true in Hid.
      rewrite Hsel in Hid. injection Hid as Hid.
      exists q, before, after. split; [done|]. split; [done|]. split; [done|].
      split; [|split; [|split; [done|]]].
      * intros a Ha Heq. specialize (Hbefore a Ha).
        unfold azureUniqueId_is in Hbefore. apply bool_decide_eq_false in Hbefore.
        apply Hbefore. by rewrite Hsel, Heq.
      * intros Hnd. rewrite Hsplit in Hnd, Hp.
        rewrite fmap_app, fmap_cons in Hnd.
        apply NoDup_app in Hnd as (_ & Hdisj & Hnd).
        apply NoDup_cons in Hnd as [Hq' _].
        apply elem_of_app in Hp as [Hp | Hp].
        -- exfalso. apply (Hdisj (Participant.azureUniqueId p)).
           ++ by apply list_elem_of_fmap_2.
           ++ rewrite <- Hid. by left.
        -- apply elem_of_cons in Hp as [-> | Hp]; [done|].
           exfalso. apply Hq'. rewrite Hid. by apply list_elem_of_fmap_2.
      * intros Ht. rewrite onLocalCreateClick_run, Hq.
        apply checkIfTitleValid_nonempty in Ht as ->. simpl.
        eexists. split; [reflexivity | done].
    + exfalso. unfold assignedTo in Hq.
      apply find_None_all with (x := p) in Hq; [|done].
      unfold azureUniqueId_is in Hq. apply bool_decide_eq_false in Hq.
      by apply Hq.
Qed.

(** *** The validity state machines *)

(** One event moves the title's validity as the specification's state
    machine does, and by nothing but the title and its own validity. *)
Lemma step_titleValidity (i : Instance) (e : Event) :
  titleValidity (state (step i e).1) =
  specFieldMachine (titleStimulus e)
    (checkIfTitleValid (title (state i))) (titleValidity (state i)).
Proof.
  destruct i as [pr s]. unfold step. simpl state at 1. simpl props.
  destruct e; simpl handlerOf; simpl titleStimulus;
    try (destruct s as [? [] ? ? ? ? ?]; reflexivity).
  - rewrite onLocalCreateClick_run. simpl.
    destruct (checkIfTitleValid (title s)), (checkIfParticipantValid (assignedTo pr s));
      simpl; by destruct (titleValidity s).
  - unfold titleEffect. simpl.
    destruct (titleValidity s) eqn:Hv; simpl;
      destruct (checkIfTitleValid (title s)); simpl; by rewrite ?Hv.
  - unfold assignedToEffect. simpl.
    destruct (assignedToValidity s); simpl;
      destruct (checkIfParticipantValid (assignedTo pr s)); simpl;
      by destruct (titleValidity s).
Qed.

(** The same for the assignee's validity. *)
Lemma step_assignedToValidity (i : Instance) (e : Event) :
  assignedToValidity (state (step i e).1) =
  specFieldMachine (assignedToStimulus e)
    (checkIfParticipantValid (assignedTo (props i) (state i)))
    (assignedToValidity (state i)).
Proof.
  destruct i as [pr s]. unfold step. simpl state at 1. simpl props.
  destruct e; simpl handlerOf; simpl assignedToStimulus;
    try (destruct s as [? ? ? [] ? ? ?]; reflexivity).
  - rewrite onLocalCreateClick_run. simpl.
    destruct (checkIfTitleValid (title s)), (checkIfParticipantValid (assignedTo pr s));
      simpl; by destruct (assignedToValidity s).
  - unfold titleEffect. simpl.
    destruct (titleValidity s); simpl;
      destruct (checkIfTitleValid (title s)); simpl;
      by destruct (assignedToValidity s), (checkIfParticipantValid (assignedTo pr s)).
  - unfold assignedToEffect. simpl.
    destruct (assignedToValidity s) eqn:Hv; simpl;
      destruct (checkIfParticipantValid (assignedTo pr s)); simpl; by rewrite ?Hv.
Qed.

(** The specification's machine leaves [Default] only on a failed submit. *)
Lemma specFieldMachine_Default (st : Stimulus) (valid : bool) :
  specFieldMachine st valid Default <> Default -> st = Submit /\ valid = false.
Proof. destruct st, valid; cbn; intros H; first [done | by destruct H]. Qed.

Lemma steps_cons (i : Instance) (e : Event) (es : list Event) :
  (steps i (e :: es)).1 = (steps (step i e).1 es).1.
Proof.
  cbn [steps]. destruct (step i e) as [i1 c1]. cbn [fst].
  by destruct (steps i1 es).
Qed.

Lemma titleValidity_stays_Default (es : list Event) : forall i : Instance,
  titleValidity (state i) = Default ->
  failedSubmit titleFails i es = false ->
  titleValidity (state (steps i es).1) = Default.
Proof.
  induction es as [|e es IH]; intros i Hd Hf; [done|].
  rewrite steps_cons. simpl in Hf.
  apply orb_false_iff in Hf as [He Hes].
  apply IH; [|done].
  rewrite step_titleValidity, Hd.
  destruct (decide (specFieldMachine (titleStimulus e)
              (checkIfTitleValid (title (state i))) Default = Default)) as [|Hne]; [done|].
  apply specFieldMachine_Default in Hne as [Hs Hv].
  unfold titleFails in He. rewrite Hv in He.
  destruct e; simpl in *; done.
Qed.

Lemma assignedToValidity_stays_Default (es : list Event) : forall i : Instance,
  assignedToValidity (state i) = Default ->
  failedSubmit assignedToFails i es = false ->
  assignedToValidity (state (steps i es).1) = Default.
Proof.
  induction es as [|e es IH]; intros i Hd Hf; [done|].
  rewrite steps_cons. simpl in Hf.
  apply orb_false_iff in Hf as [He Hes].
  apply IH; [|done].
  rewrite step_assignedToValidity, Hd.
  destruct (decide (specFieldMachine (assignedToStimulus e)
              (checkIfParticipantValid (assignedTo (props i) (state i))) Default
            = Default)) as [|Hne]; [done|].
  apply specFieldMachine_Default in Hne as [Hs Hv].
  unfold assignedToFails in He. rewrite Hv in He.
  destruct e; simpl in *; done.
Qed.

(** C7: each event moves each field's validity exactly as the
    specification's state machine does (a failed submit sets [Error]; the
    field's effect turns [Error] into [Success] when the field is valid and
    [Success] into [Error] when it is not; nothing else changes it), each
    field by its own value and validity only; so over any list of events in
    which no Create click finds the field failing, a field that is in
    [Default] stays in [Default]. *)
Theorem validity_follows_field_machine (i : Instance) (es : list Event) :
  (forall (j : Instance) (e : Event),
     titleValidity (state (step j e).1) =
       specFieldMachine (titleStimulus e)
         (checkIfTitleValid (title (state j))) (titleValidity (state j)) /\
     assignedToValidity (state (step j e).1) =
       specFieldMachine (assignedToStimulus e)
         (checkIfParticipantValid (assignedTo (props j) (state j)))
         (assignedToValidity (state j))) /\
  (titleValidity (state i) = Default ->
   failedSubmit titleFails i es = false ->
   titleValidity (state (steps i es).1) = Default) /\
  (assignedToValidity (state i) = Default ->
   failedSubmit assignedToFails i es = false ->
   assignedToValidity (state (steps i es).1) = Default).
Proof.
  split; [|split].
  - intros j e. split;
      [apply step_titleValidity | apply step_assignedToValidity].
  - apply titleValidity_stays_Default.
  - apply assignedToValidity_stays_Default.
Qed.

(** *** The form on the sample data *)

Example checkIfTitleValid_samples :
  checkIfTitleValid "" = false /\ checkIfTitleValid " " = true /\
  checkIfTitleValid "Replace valve" = true.
Proof. by repeat split. Qed.

Example create_filled :
  run (onLocalCreateClick Samples.formProps Samples.filled 1700000001000%Z) Samples.filled
  = (Samples.filled,
     [ Action.mk "" "Replace valve" (Some Samples.alice) "Valve 12 leaks" Medium
         1700000000000%Z false 1700000001000%Z [] Samples.question ]).
Proof. reflexivity. Qed.

Example create_untitled :
  run (onLocalCreateClick Samples.formProps Samples.untitled 1700000001000%Z) Samples.untitled
  = (mkState "" Error (Some "oid-alice") Default 1700000000000%Z High "", []).
Proof. reflexivity. Qed.

Example create_staleAssignee :
  run (onLocalCreateClick Samples.formProps Samples.staleAssignee 1700000001000%Z)
      Samples.staleAssignee
  = (mkState "Replace valve" Default (Some "oid-carol") Error 1700000000000%Z High "", []).
Proof. reflexivity. Qed.

(** Default -> Error -> Success -> Error for the title, and
    Default -> Error -> Success for the assignee. *)
Example validities_fullCycle :
  Samples.validities Samples.mounted Samples.fullCycle =
  [ (Error, Error); (Error, Error); (Error, Error); (Success, Error);
    (Success, Error); (Success, Success); (Success, Success); (Error, Success) ].
Proof. reflexivity. Qed.

Example validities_assigneeNeverFails :
  Samples.validities Samples.mounted Samples.assigneeNeverFails =
  [ (Default, Default); (Default, Default); (Error, Default); (Error, Default);
    (Error, Default) ].
Proof. reflexivity. Qed.

Example validities_titleNeverFails :
  Samples.validities Samples.mounted Samples.titleNeverFails =
  [ (Default, Default); (Default, Default); (Default, Error); (Default, Error);
    (Default, Error); (Default, Error); (Default, Error) ].
Proof. reflexivity. Qed.

(** The filled form is submitted: one action, for Alice. *)
Lemma onLocalCreateClick_valid_calls_once_witness :
  exists action,
    run (onLocalCreateClick Samples.formProps Samples.filled 1700000001000%Z) Samples.filled
      = (Samples.filled, [action]) /\
    Action.id action = "" /\
    Action.onHold action = false /\
    Action.notes action = [] /\
    Action.dueDate action = 1700000000000%Z /\
    Action.priority action = Medium /\
    Action.title action = "Replace valve" /\
    Action.assignedTo action = Some Samples.alice /\
    Action.description action = "Valve 12 leaks" /\
    Action.createDate action = 1700000001000%Z /\
    Action.question action = Samples.question.
Proof.
  apply (onLocalCreateClick_valid_calls_once
           Samples.formProps Samples.filled 1700000001000%Z).
  - discriminate.
  - exists Samples.alice. reflexivity.
Defined.

(** The form without a title is submitted: no call, and the title is in [Error]. *)
Lemma onLocalCreateClick_invalid_blocks_witness :
  (run (onLocalCreateClick Samples.formProps Samples.untitled 1700000001000%Z)
       Samples.untitled).2 = [] /\
  titleValidity
    (run (onLocalCreateClick Samples.formProps Samples.untitled 1700000001000%Z)
         Samples.untitled).1 = Error.
Proof.
  pose proof (onLocalCreateClick_invalid_blocks
                Samples.formProps Samples.untitled 1700000001000%Z
                (or_introl eq_refl)) as (Hcalls & Htitle & _).
  split; [exact Hcalls | exact (Htitle eq_refl)].
Defined.

(** Alice is found among the possible assignees and handed over; Carol,
    picked but not among them, counts as not selected. *)
Lemma assignedTo_resolved_in_possibleAssignees_witness :
  (exists assignee,
     Some Samples.alice = Some assignee /\
     assignee ∈ [Samples.alice; Samples.bob] /\
     Some "oid-alice" = Some (Participant.azureUniqueId assignee)) /\
  (assignedTo Samples.formProps Samples.staleAssignee = None /\
   checkIfParticipantValid (assignedTo Samples.formProps Samples.staleAssignee) = false /\
   (run (onLocalCreateClick Samples.formProps Samples.staleAssignee 1700000001000%Z)
        Samples.staleAssignee).2 = [] /\
   assignedToValidity
     (run (onLocalCreateClick Samples.formProps Samples.staleAssignee 1700000001000%Z)
          Samples.staleAssignee).1 = Error) /\
  (exists assignee before after,
     assignedTo Samples.formProps Samples.filled = Some assignee /\
     [Samples.alice; Samples.bob] = before ++ assignee :: after /\
     Participant.azureUniqueId assignee = "oid-alice" /\
     (forall a, a ∈ before -> Participant.azureUniqueId a <> "oid-alice") /\
     (NoDup (Participant.azureUniqueId <$> [Samples.alice; Samples.bob]) ->
      assignee = Samples.alice) /\
     checkIfParticipantValid (assignedTo Samples.formProps Samples.filled) = true /\
     ("Replace valve" <> "" ->
      exists action,
        (run (onLocalCreateClick Samples.formProps Samples.filled 1700000001000%Z)
             Samples.filled).2 = [action] /\
        Action.assignedTo action = Some assignee)).
Proof.
  split; [|split].
  - apply (proj1 (assignedTo_resolved_in_possibleAssignees
                    Samples.formProps Samples.filled 1700000001000%Z)
             (Action.mk "" "Replace valve" (Some Samples.alice) "Valve 12 leaks" Medium
                1700000000000%Z false 1700000001000%Z [] Samples.question)).
    apply list_elem_of_singleton. reflexivity.
  - apply (proj1 (proj2 (assignedTo_resolved_in_possibleAssignees
                           Samples.formProps Samples.staleAssignee 1700000001000%Z))).
    intros a Ha. simpl in Ha.
    apply elem_of_cons in Ha as [-> | Ha]; [discriminate|].
    apply list_elem_of_singleton in Ha as ->. discriminate.
  - apply (proj2 (proj2 (assignedTo_resolved_in_possibleAssignees
                           Samples.formProps Samples.filled 1700000001000%Z))
             Samples.alice).
    + left.
    + reflexivity.
Defined.

(** A submit that fails on the assignee leaves the title in [Default], and
    a submit that fails on the title leaves the assignee in [Default]. *)
Lemma validity_follows_field_machine_witness :
  titleValidity (state (steps Samples.mounted Samples.titleNeverFails).1) = Default /\
  failedSubmit assignedToFails Samples.mounted Samples.titleNeverFails = true /\
  assignedToValidity (state (steps Samples.mounted Samples.assigneeNeverFails).1) = Default.
Proof.
  pose proof (validity_follows_field_machine Samples.mounted Samples.titleNeverFails)
    as (_ & Htitle & _).
  pose proof (validity_follows_field_machine Samples.mounted Samples.assigneeNeverFails)
    as (_ & _ & Hassignee).
  split; [exact (Htitle eq_refl eq_refl) | split; [reflexivity | exact (Hassignee eq_refl eq_refl)]].
Defined.

End ActionCreateFormProperties.

(** ** QuestionAndAnswerForm *)

Section QuestionAndAnswerFormProperties.

Import QuestionAndAnswerForm.

(** A spread with one property set: that property holds the new value, every
    other property is as in the original, and no property is lost. *)
Lemma spreadWith_lookup (o : gmap string JSValue) (key : string) (value : JSValue) :
  spreadWith o key value !! key = Some value /\
  (forall k, k <> key -> spreadWith o key value !! k = o !! k) /\
  dom (spreadWith o key value) = {[key]} ∪ dom o.
Proof.
  unfold spreadWith. split; [apply lookup_insert_eq|]. split.
  - intros k Hk. by apply lookup_insert_ne.
  - apply dom_insert_L.
Qed.

(** C9: an edit of the severity, and an edit of the markdown text, each make
    one call to [onAnswerChange]; its argument is a whole answer object: the
    edited property has the new value, every other property of the current
    answer is there with its current value. *)
Theorem answer_edit_passes_whole_answer
    (props : Props) (severity : Severity) (text : string) :
  (exists updated,
     onSeveritySelected props severity = [updated] /\
     updated !! "severity" = Some (JString severity) /\
     (forall k, k <> "severity" -> updated !! k = answer props !! k) /\
     dom updated = {["severity"]} ∪ dom (answer props)) /\
  (exists updated,
     onMarkdownChange props text = [updated] /\
     updated !! "text" = Some (JString text) /\
     (forall k, k <> "text" -> updated !! k = answer props !! k) /\
     dom updated = {["text"]} ∪ dom (answer props)).
Proof.
  split; eexists; (split; [reflexivity|]); apply spreadWith_lookup.
Qed.

Example severity_edit_sample :
  onSeveritySelected Samples.panelProps "HIGH" =
  [ <["id" := JString "a-1"]>
    (<["progression" := JString "PREPARATION"]>
    (<["severity" := JString "HIGH"]>
    (<["text" := JString "Tested in May"]>
    (<["question" := JRef 7]> ∅)))) ].
Proof. vm_compute. reflexivity. Qed.

Example markdown_edit_sample :
  exists updated,
    onMarkdownChange Samples.panelProps "Tested in June" = [updated] /\
    (fun k => updated !! k) <$> ["id"; "progression"; "severity"; "text"; "question"; "notes"]
    = [ Some (JString "a-1"); Some (JString "PREPARATION"); Some (JString "LOW");
        Some (JString "Tested in June"); Some (JRef 7); None ].
Proof. eexists. split; [reflexivity|]. vm_compute. reflexivity. Qed.

End QuestionAndAnswerFormProperties.

(** ** NominationView: the role gates *)

Section RoleGateProperties.

Import NominationView.



Section AnyRoleBasedAccess.

(** The gates for whatever utils/RoleBasedAccess answers. *)
Variable canProgress canAdd : Role -> bool.



Lemma disableAddParticipant_atProgression
    (evaluation : Evaluation.t) (progression : Progression) (uid : string) :
  disableAddParticipant canAdd (atProgression evaluation progression) uid =
  disableAddParticipant canAdd evaluation uid.
Proof. reflexivity. Qed.

End AnyRoleBasedAccess.

Import RoleBasedAccess.





End RoleGateProperties.

(** ** NominationView: the gates and the render on the sample data *)

Section NominationViewSamples.

Import NominationView RoleBasedAccess.

(** The spec's scenario: at Nomination an OrganizationLead may finish the
    nomination, and so may a Facilitator; another role may not, nor may
    somebody who is no participant, nor anybody at a later stage. *)
Example disableProgression_samples :
  (fun uid => disableProgression participantCanProgressEvaluation Samples.evaluation uid)
    <$> ["oid-alice"; "oid-bob"; "oid-carol"; "oid-dave"]
  = [false; true; false; true] /\
  (fun uid => disableProgression participantCanProgressEvaluation
                (atProgression Samples.evaluation (LaterStage "Preparation")) uid)
    <$> ["oid-alice"; "oid-bob"; "oid-carol"; "oid-dave"]
  = [true; true; true; true].
Proof. by split. Qed.

Example disableAddParticipant_samples :
  (fun uid => disableAddParticipant participantCanAddParticipant Samples.evaluation uid)
    <$> ["oid-alice"; "oid-bob"; "oid-carol"; "oid-dave"]
  = [false; true; false; true] /\
  (fun uid => disableAddParticipant participantCanAddParticipant
                (atProgression Samples.evaluation (LaterStage "Preparation")) uid)
    <$> ["oid-alice"; "oid-bob"; "oid-carol"; "oid-dave"]
  = [false; true; false; true].
Proof. by split. Qed.

(** When a user id occurs twice, the first entry decides. *)
Example gates_first_entry_decides :
  disableProgression participantCanProgressEvaluation Samples.twice "oid-erin" = true /\
  disableAddParticipant participantCanAddParticipant Samples.twice "oid-erin" = true.
Proof. by split. Qed.



End NominationViewSamples.

(** ** NominationView: the order of the render's branches *)

Section RenderProperties.

Import NominationView.

Variable canProgress canAdd : Role -> bool.

(** The page of the loaded view. *)
Lemma render_loaded (evaluation : Evaluation.t) (h : Hooks) (ps : list Participant.t) :
  loadingQuery h = false ->
  errorMutation h = None ->
  errorQuery h = None ->
  participants h = Some ps ->
  render canProgress canAdd evaluation h =
  Loaded {| evaluationTitle := Evaluation.name evaluation;
            finishNominationDisabled :=
              disableProgression canProgress evaluation (azureUniqueId h);
            addPersonDisabled :=
              disableAddParticipant canAdd evaluation (azureUniqueId h);
            tableParticipants := ps;
            dialogOpen := panelOpen h;
            currentNominees := ps |}.
Proof. unfold render. by intros -> -> -> ->. Qed.

(** C2, as the code has it: the loading test comes first, then the mutation
    error, then the query error or missing data, then the loaded view.  So
    while the participant query is loading the placeholder is rendered,
    whatever the other hooks say; once it is not loading, a mutation error is
    rendered in preference to the query error and to the loaded view. *)
Theorem render_branch_order (evaluation : Evaluation.t) (h : Hooks) :
  (loadingQuery h = true ->
   render canProgress canAdd evaluation h = LoadingText) /\
  (loadingQuery h = false ->
   errorMutation h <> None ->
   render canProgress canAdd evaluation h = ErrorTextArea "Could not add participant") /\
  (loadingQuery h = false ->
   errorMutation h = None ->
   errorQuery h <> None \/ participants h = None ->
   render canProgress canAdd evaluation h = ErrorTextArea "Could not load participants") /\
  (loadingQuery h = false ->
   errorMutation h = None ->
   errorQuery h = None ->
   participants h <> None ->
   exists page, render canProgress canAdd evaluation h = Loaded page /\
                Some (tableParticipants page) = participants h).
Proof.
  unfold render. repeat split.
  - by intros ->.
  - intros -> He. by destruct (errorMutation h).
  - intros -> -> [He | Hp].
    + by destruct (errorQuery h).
    + rewrite Hp. by destruct (errorQuery h).
  - intros -> -> -> Hp. destruct (participants h) as [ps|]; [|done].
    by eexists.
Qed.

End RenderProperties.

Section RenderSamples.

Import NominationView RoleBasedAccess.

(** C2 as stated fails: with a mutation error present and the query
    loading, the render returns the loading placeholder, not the mutation
    error message. *)
Lemma mutation_error_not_checked_first :
  ~ (forall (evaluation : Evaluation.t) (h : Hooks),
       errorMutation h <> None ->
       render participantCanProgressEvaluation participantCanAddParticipant evaluation h
       = ErrorTextArea "Could not add participant").
Proof.
  intros H.
  specialize (H Samples.evaluation Samples.loadingAfterFailedCreate
                ltac:(discriminate)).
  discriminate H.
Qed.

Example render_loadingAfterFailedCreate :
  render participantCanProgressEvaluation participantCanAddParticipant
    Samples.evaluation Samples.loadingAfterFailedCreate = LoadingText.
Proof. reflexivity. Qed.

Example render_bothFailed :
  render participantCanProgressEvaluation participantCanAddParticipant
    Samples.evaluation Samples.bothFailed = ErrorTextArea "Could not add participant".
Proof. reflexivity. Qed.

Example render_loaded_sample :
  render participantCanProgressEvaluation participantCanAddParticipant
    Samples.evaluation Samples.loaded
  = Loaded (mkPage "Platform A" false false
              [Samples.alice; Samples.bob; Samples.carol] false
              [Samples.alice; Samples.bob; Samples.carol]).
Proof. reflexivity. Qed.

(** Loading wins over a failed creation, and a failed creation wins over a
    failed query. *)
Lemma render_branch_order_witness :
  render participantCanProgressEvaluation participantCanAddParticipant
    Samples.evaluation Samples.loadingAfterFailedCreate = LoadingText /\
  render participantCanProgressEvaluation participantCanAddParticipant
    Samples.evaluation Samples.bothFailed = ErrorTextArea "Could not add participant".
Proof.
  split.
  - apply (proj1 (render_branch_order
                    participantCanProgressEvaluation participantCanAddParticipant
                    Samples.evaluation Samples.loadingAfterFailedCreate)).
    reflexivity.
  - apply (proj1 (proj2 (render_branch_order
                    participantCanProgressEvaluation participantCanAddParticipant
                    Samples.evaluation Samples.bothFailed))).
    + reflexivity.
    + discriminate.
Defined.

End RenderSamples.

(** ** NominationView: the cache update of the creation mutation *)

Section CacheProperties.

Import NominationView.

Variable created : Participant.t.

Let newRef : Reference := makeReference (Participant.id created).

(** The cache after [writeFragment] of the created participant. *)
Let written (c : Cache) : Cache :=
  {| entities := <[Participant.id created := created]> (entities c);
     rootQuery := rootQuery c |}.

Lemma written_written (c : Cache) : written (written c) = written c.
Proof. unfold written. simpl. by rewrite insert_insert_eq. Qed.

Lemma participantsModifier_run (existing : list Reference) (c : Cache) :
  participantsModifier created existing c = (existing ++ [newRef], written c).
Proof. reflexivity. Qed.

Lemma modifyFields_cons (name : string)
    (modifier : list Reference -> CacheOp (list Reference))
    (k : StoreFieldName) (v : list Reference)
    (rest : list (StoreFieldName * list Reference)) (c : Cache) :
  modifyFields name modifier ((k, v) :: rest) c =
  let '(v', c1) :=
    if bool_decide (fieldName k = name) then modifier v c else (v, c) in
  let '(rest', c2) := modifyFields name modifier rest c1 in
  ((k, v') :: rest', c2).
Proof.
  cbn [modifyFields]. unfold mbind, CacheOp_bind, mret, CacheOp_ret.
  case_bool_decide; [|done]. by destruct (modifier v c).
Qed.

(** [modifyFields] with the participants modifier: every field of the given
    name gets the new reference appended, the other fields keep their value,
    no field is added or dropped, and the fragment is written if and only if
    some field has the name. *)
Lemma modifyFields_participantsModifier
    (name : string) (fields : list (StoreFieldName * list Reference)) :
  forall c : Cache,
    let r := modifyFields name (participantsModifier created) fields c in
    (forall k, lookupField k r.1 =
               (fun v => if bool_decide (fieldName k = name) then v ++ [newRef] else v)
                 <$> lookupField k fields) /\
    (r.2 = c \/ r.2 = written c) /\
    ((exists k v, (k, v) ∈ fields /\ fieldName k = name) -> r.2 = written c).
Proof.
  induction fields as [|[k0 v0] rest IH]; intros c; cbn zeta.
  - simpl. split; [done|]. split; [by left|].
    intros (k & v & Hin & _). by apply elem_of_nil in Hin.
  - rewrite modifyFields_cons. case_bool_decide as Hname.
    + rewrite participantsModifier_run.
      specialize (IH (written c)). cbn zeta in IH.
      destruct (modifyFields name (participantsModifier created) rest (written c))
        as [rest' c'].
      destruct IH as (IHl & IHc & _). cbn [fst snd] in *.
      rewrite written_written in IHc.
      split; [|split].
      * intros k. cbn [lookupField]. case_bool_decide as Hk.
        -- subst k0. simpl. by rewrite bool_decide_eq_true_2.
        -- apply IHl.
      * right. by destruct IHc.
      * intros _. by destruct IHc.
    + specialize (IH c). cbn zeta in IH.
      destruct (modifyFields name (participantsModifier created) rest c)
        as [rest' c'].
      destruct IH as (IHl & IHc & IHe). cbn [fst snd] in *.
      split; [|split].
      * intros k. cbn [lookupField]. case_bool_decide as Hk.
        -- subst k0. simpl. by rewrite bool_decide_eq_false_2.
        -- apply IHl.
      * done.
      * intros (k & v & Hin & Hk). apply IHe.
        apply elem_of_cons in Hin as [[= -> ->] | Hin]; [done|].
        by exists k, v.
Qed.

Lemma lookupField_elem (k : StoreFieldName) (v : list Reference)
    (fields : list (StoreFieldName * list Reference)) :
  lookupField k fields = Some v -> (k, v) ∈ fields.
Proof.
  induction fields as [|[k0 v0] rest IH]; [done|]. simpl.
  case_bool_decide as Hk.
  - intros [= ->]. subst. by left.
  - intros H. right. by apply IH.
Qed.






End CacheProperties.

Section CacheSamples.

Import NominationView.

(** Dave is created for evaluation e-1: his record is stored under his id,
    and a reference to it is appended to the participants list of e-1, and
    to the list of e-2 as well, since [modify] goes by the field's name. *)
Example update_sample :
  let c' := (update Samples.dave Samples.cache).2 in
  rootQuery c' =
    [ (mkStoreFieldName "evaluations" "", []);
      (participantsField "e-1",
       [makeReference "Participant:p-1"; makeReference "Participant:p-2";
        makeReference "p-4"]);
      (participantsField "e-2",
       [makeReference "Participant:p-3"; makeReference "p-4"]) ] /\
  readParticipants "e-1" c' = Some [Samples.alice; Samples.bob; Samples.dave] /\
  readParticipants "e-2" c' = Some [Samples.carol; Samples.dave] /\
  readParticipants "e-3" c' = None.
Proof. cbv zeta. repeat split. Qed.

(** A second record returned under an id that the list already refers to
    replaces the object the earlier reference resolves to. *)
Example update_same_id_sample :
  let dave' := Participant.mk "p-4" "oid-dave" Facilitator "Engineering" in
  let c1 := (update Samples.dave Samples.cache).2 in
  let c2 := (update dave' c1).2 in
  readParticipants "e-1" c1 = Some [Samples.alice; Samples.bob; Samples.dave] /\
  readParticipants "e-1" c2 = Some [Samples.alice; Samples.bob; dave'; dave'].
Proof. cbv zeta. split; reflexivity. Qed.

(** Picking Dave in the dialog sends the creation mutation, and its success
    sends nothing more. *)
Example onNomineeSelected_sample :
  let cl0 := {| cache := Samples.cache; sent := [ParticipantsRequest "e-1"] |} in
  let cl1 := onNomineeSelected Samples.evaluation "oid-dave" (OtherRole "Participant")
               "Engineering" cl0 in
  cl1 = Samples.client /\
  sent (mutationSucceeded createParticipantOptions Samples.dave cl1) = sent cl1.
Proof. cbv zeta. split; reflexivity. Qed.

Example mutationSucceeded_sample :
  sent (mutationSucceeded createParticipantOptions Samples.dave Samples.client)
  = [ ParticipantsRequest "e-1";
      CreateParticipantRequest "oid-dave" "e-1" "Engineering" (OtherRole "Participant") ].
Proof. reflexivity. Qed.


Example returnedAsBob_sample :
  readParticipants "e-1"
    (cache (mutationSucceeded createParticipantOptions MoreSamples.returnedAsBob
              Samples.client))
  = Some [Samples.alice; MoreSamples.returnedAsBob; MoreSamples.returnedAsBob].
Proof. reflexivity. Qed.

(** The client's write and the write of [update]: Dave is stored twice. *)
Example mutationSucceeded_entities_sample :
  (fun id => entities (cache (mutationSucceeded createParticipantOptions Samples.dave
                                Samples.client)) !! id)
    <$> ["Participant:p-4"; "p-4"; "Participant:p-2"; "p-2"]
  = [Some Samples.dave; Some Samples.dave; Some Samples.bob; None].
Proof. vm_compute. reflexivity. Qed.


End CacheSamples.

(** * Further properties *)

(** ** ActionCreateForm: what a list of events hands to [onActionCreate] *)

Section FormTraces.

Import ActionCreateForm.

(** Only a Create click on a form whose two fields are valid makes a call. *)
Lemma step_calls (i : Instance) (e : Event) :
  (step i e).2 =
  match e with
  | CreateClick now =>
      if checkIfTitleValid (title (state i))
         && checkIfParticipantValid (assignedTo (props i) (state i))
      then (run (onLocalCreateClick (props i) (state i) now) (state i)).2
      else []
  | _ => []
  end.
Proof.
  destruct i as [pr s]. unfold step. simpl state. simpl props.
  destruct e; simpl handlerOf; try (destruct s; reflexivity).
  - rewrite onLocalCreateClick_run.
    by destruct (checkIfTitleValid (title s)),
                (checkIfParticipantValid (assignedTo pr s)).
  - unfold titleEffect.
    destruct (titleValidity s); simpl; by destruct (checkIfTitleValid (title s)).
  - unfold assignedToEffect.
    destruct (assignedToValidity s); simpl;
      by destruct (checkIfParticipantValid (assignedTo pr s)).
Qed.

Lemma steps_calls_cons (i : Instance) (e : Event) (es : list Event) :
  (steps i (e :: es)).2 = (step i e).2 ++ (steps (step i e).1 es).2.
Proof.
  cbn [steps]. destruct (step i e) as [i1 c1]. cbn [fst snd].
  by destruct (steps i1 es).
Qed.

(** X1: whatever the events, every action handed to [onActionCreate] has a
    title that is not empty and an assignee, and is new: empty id, not on
    hold, no notes. *)
Theorem submitted_actions_well_formed (i : Instance) (es : list Event) (action : Action.t) :
  action ∈ (steps i es).2 ->
  Action.title action <> "" /\
  is_Some (Action.assignedTo action) /\
  Action.id action = "" /\
  Action.onHold action = false /\
  Action.notes action = [].
Proof.
  revert i. induction es as [|e es IH]; intros i Hin.
  - by apply elem_of_nil in Hin.
  - rewrite steps_calls_cons in Hin. apply elem_of_app in Hin as [Hin | Hin];
      [|by apply (IH _ Hin)].
    rewrite step_calls in Hin. destruct e; try by apply elem_of_nil in Hin.
    destruct (checkIfTitleValid (title (state i))) eqn:Ht;
      destruct (checkIfParticipantValid (assignedTo (props i) (state i))) eqn:Ha;
      simpl in Hin; try by apply elem_of_nil in Hin.
    rewrite onLocalCreateClick_run, Ht, Ha in Hin. simpl in Hin.
    apply list_elem_of_singleton in Hin as ->. simpl.
    split; [by apply checkIfTitleValid_nonempty|].
    split; [by apply checkIfParticipantValid_Some|]. done.
Qed.

(** X2: a list of events makes at most as many calls to [onActionCreate] as
    it has Create clicks; typing, selecting, cancelling, effects and
    re-renders make none. *)
Theorem calls_bounded_by_create_clicks (i : Instance) (es : list Event) :
  length (steps i es).2 <= length (filter (fun e => isCreateClick e = true) es).
Proof.
  revert i. induction es as [|e es IH]; intros i; [done|].
  rewrite steps_calls_cons, length_app.
  specialize (IH (step i e).1).
  assert (length (step i e).2 <= if isCreateClick e then 1 else 0) as Hstep.
  { rewrite step_calls. destruct e; simpl; try lia.
    rewrite onLocalCreateClick_run.
    destruct (checkIfTitleValid (title (state i))),
             (checkIfParticipantValid (assignedTo (props i) (state i))); simpl; lia. }
  destruct (isCreateClick e) eqn:He.
  - rewrite filter_cons_True by done. simpl length. lia.
  - rewrite filter_cons_False by (by rewrite He). lia.
Qed.

(** X3: a successful Create click leaves the form as it is: it is neither
    cleared nor locked, so a second Create click hands over the same action
    again, with its own creation date. *)
Theorem create_twice_submits_twice (pr : Props) (s : State) (now1 now2 : Date) :
  title s <> "" ->
  is_Some (assignedTo pr s) ->
  exists action,
    steps (mkInstance pr s) [CreateClick now1; CreateClick now2] =
    (mkInstance pr s,
     [ action;
       Action.mk (Action.id action) (Action.title action) (Action.assignedTo action)
         (Action.description action) (Action.priority action) (Action.dueDate action)
         (Action.onHold action) now2 (Action.notes action) (Action.question action) ]) /\
    Action.createDate action = now1.
Proof.
  intros Ht Ha.
  apply checkIfTitleValid_nonempty in Ht.
  apply checkIfParticipantValid_Some in Ha.
  exists (Action.mk "" (title s) (assignedTo pr s) (description s) (priority s)
            (dueDate s) false now1 [] (connectedQuestion pr)).
  cbn [steps]. unfold step. cbn [state props handlerOf].
  rewrite !onLocalCreateClick_run, Ht, Ha. cbn.
  rewrite !onLocalCreateClick_run, Ht, Ha. cbn.
  split; reflexivity.
Qed.

End FormTraces.

(** ** ActionCreateForm: the validity effects *)

Section EffectProperties.

Import ActionCreateForm ReactSchedule.

Lemma titleEffect_run (s : State) :
  run (titleEffect s) s =
  (mkState (title s)
     (specFieldMachine Reactive (checkIfTitleValid (title s)) (titleValidity s))
     (assignedToId s) (assignedToValidity s) (dueDate s) (priority s) (description s),
   []).
Proof.
  unfold titleEffect. destruct s as [t v a av d p ds]. simpl.
  destruct v; simpl; by destruct (checkIfTitleValid t).
Qed.

Lemma assignedToEffect_run (pr : Props) (s : State) :
  run (assignedToEffect pr s) s =
  (mkState (title s) (titleValidity s) (assignedToId s)
     (specFieldMachine Reactive (checkIfParticipantValid (assignedTo pr s))
        (assignedToValidity s))
     (dueDate s) (priority s) (description s),
   []).
Proof.
  unfold assignedToEffect.
  generalize (checkIfParticipantValid (assignedTo pr s)). intros valid.
  destruct s as [t v a av d p ds]. simpl.
  destruct av; simpl; by destruct valid.
Qed.

Lemma specFieldMachine_Reactive_agrees (valid : bool) (v : Validity) :
  agrees valid (specFieldMachine Reactive valid v).
Proof. destruct valid, v; by split. Qed.

Lemma specFieldMachine_agrees (st : Stimulus) (valid : bool) (v : Validity) :
  agrees valid v -> agrees valid (specFieldMachine st valid v).
Proof.
  intros [He Hs]. destruct st, valid, v; simpl; split; intros H; try done;
    first [by apply He | by apply Hs].
Qed.

Lemma specFieldMachine_Reactive_fixed (valid : bool) (v : Validity) :
  agrees valid v -> specFieldMachine Reactive valid v = v.
Proof.
  intros [He Hs]. destruct valid, v; simpl; try done.
  - by specialize (He eq_refl).
  - by specialize (Hs eq_refl).
Qed.

Lemma specFieldMachine_Reactive_idem (valid : bool) (v : Validity) :
  specFieldMachine Reactive valid (specFieldMachine Reactive valid v)
  = specFieldMachine Reactive valid v.
Proof. apply specFieldMachine_Reactive_fixed, specFieldMachine_Reactive_agrees. Qed.

(** X4: one run of a validity effect is enough.  After the run the field's
    validity agrees with the field (error only if invalid, success only if
    valid), a second run changes nothing, the run changes no cell but the
    field's validity, and it calls nothing. *)
Theorem effects_settle_in_one_run (pr : Props) (s : State) :
  let s1 := (run (titleEffect s) s).1 in
  let s2 := (run (assignedToEffect pr s) s).1 in
  (run (titleEffect s1) s1 = (s1, []) /\
   agrees (checkIfTitleValid (title s1)) (titleValidity s1) /\
   (title s1, assignedToId s1, assignedToValidity s1, dueDate s1, priority s1, description s1)
   = (title s, assignedToId s, assignedToValidity s, dueDate s, priority s, description s) /\
   (run (titleEffect s) s).2 = []) /\
  (run (assignedToEffect pr s2) s2 = (s2, []) /\
   agrees (checkIfParticipantValid (assignedTo pr s2)) (assignedToValidity s2) /\
   (title s2, titleValidity s2, assignedToId s2, dueDate s2, priority s2, description s2)
   = (title s, titleValidity s, assignedToId s, dueDate s, priority s, description s) /\
   (run (assignedToEffect pr s) s).2 = []).
Proof.
  cbv zeta. split.
  - unfold titleEffect. destruct s as [t v a av d p ds]. simpl.
    destruct v, (checkIfTitleValid t) eqn:Ht; simpl; rewrite ?Ht; simpl;
      unfold agrees; repeat split; intros; congruence.
  - unfold assignedToEffect, assignedTo.
    destruct s as [t v a av d p ds]. simpl.
    destruct av,
      (checkIfParticipantValid (find (possibleAssignees pr) (azureUniqueId_is a))) eqn:Ha;
      simpl; rewrite ?Ha; simpl; unfold agrees; repeat split; intros; congruence.
Qed.

End EffectProperties.

(** ** ActionCreateForm under React's schedule *)

Section ScheduleProperties.

Import ActionCreateForm ReactSchedule.

Variable sameRef : option Participant.t -> option Participant.t -> bool.

(** What one commit does to the state: each validity takes the step of its
    effect if the effect's dependencies changed. *)
Lemma commit_state (f : Fiber) :
  let s := state (instance f) in
  state (instance (commit sameRef f)) =
  mkState (title s)
    (if titleDepsChanged f
     then specFieldMachine Reactive (checkIfTitleValid (title s)) (titleValidity s)
     else titleValidity s)
    (assignedToId s)
    (if assignedToDepsChanged sameRef f
     then specFieldMachine Reactive
            (checkIfParticipantValid (assignedTo (props (instance f)) s))
            (assignedToValidity s)
     else assignedToValidity s)
    (dueDate s) (priority s) (description s).
Proof.
  destruct f as [[pr s] td ad]. cbv zeta. unfold commit, commitEffects.
  cbn [instance state props].
  generalize (titleDepsChanged {| instance := mkInstance pr s; titleDeps := td;
                                  assignedToDeps := ad |}).
  generalize (assignedToDepsChanged sameRef
                {| instance := mkInstance pr s; titleDeps := td; assignedToDeps := ad |}).
  intros ca ct. unfold titleEffect, assignedToEffect.
  generalize (checkIfParticipantValid (assignedTo pr s)). intros va.
  destruct s as [t v a av d p ds]. cbn [title titleValidity assignedToId
    assignedToValidity dueDate priority description].
  generalize (checkIfTitleValid t). intros vt.
  destruct ct, ca, v, av, vt, va; reflexivity.
Qed.

Lemma commit_props (f : Fiber) :
  props (instance (commit sameRef f)) = props (instance f).
Proof. reflexivity. Qed.

Lemma commit_deps (f : Fiber) :
  titleDeps (commit sameRef f) =
    Some (title (state (instance f)), titleValidity (state (instance f))) /\
  assignedToDeps (commit sameRef f) =
    Some (assignedTo (props (instance f)) (state (instance f))).
Proof. by split. Qed.

(** A commit brings into agreement every field whose effect runs, and
    leaves the others as they are. *)
Lemma commit_agrees (f : Fiber) :
  titleAgrees (instance f) \/ titleDepsChanged f = true ->
  assignedToAgrees (instance f) \/ assignedToDepsChanged sameRef f = true ->
  titleAgrees (instance (commit sameRef f)) /\
  assignedToAgrees (instance (commit sameRef f)).
Proof.
  intros Ht Ha. unfold titleAgrees, assignedToAgrees in *.
  rewrite commit_props, commit_state. cbv zeta. unfold assignedTo. simpl.
  split.
  - destruct (titleDepsChanged f).
    + apply specFieldMachine_Reactive_agrees.
    + by destruct Ht.
  - destruct (assignedToDepsChanged sameRef f).
    + apply specFieldMachine_Reactive_agrees.
    + by destruct Ha.
Qed.

(** When both fields agree, a commit changes nothing. *)
Lemma commit_fixed (f : Fiber) :
  titleAgrees (instance f) ->
  assignedToAgrees (instance f) ->
  state (instance (commit sameRef f)) = state (instance f).
Proof.
  intros Ht Ha. rewrite commit_state. cbv zeta.
  rewrite (specFieldMachine_Reactive_fixed _ _ Ht),
          (specFieldMachine_Reactive_fixed _ _ Ha).
  destruct (titleDepsChanged f), (assignedToDepsChanged sameRef f);
    by destruct (state (instance f)).
Qed.

Lemma instance_eq (i j : Instance) :
  props i = props j -> state i = state j -> i = j.
Proof. destruct i, j. simpl. by intros -> ->. Qed.

(** The render loop: two commits bring the component to rest, in agreement,
    with the dependencies of the resting state on record; the state it
    rests in is the one the first commit produced. *)
Lemma renderLoop_rest (f : Fiber) :
  titleAgrees (instance f) \/ titleDepsChanged f = true ->
  assignedToAgrees (instance f) \/ assignedToDepsChanged sameRef f = true ->
  let r := renderLoop sameRef f in
  titleAgrees (instance r) /\ assignedToAgrees (instance r) /\ recorded r /\
  instance r = instance (commit sameRef f).
Proof.
  intros Ht Ha. destruct (commit_agrees f Ht Ha) as [Ht1 Ha1].
  cbv zeta. unfold renderLoop. cbn [settle].
  case_bool_decide as H1.
  - split; [done|]. split; [done|]. split; [|done].
    unfold recorded. rewrite commit_props, H1. apply commit_deps.
  - pose proof (commit_fixed _ Ht1 Ha1) as H2.
    rewrite bool_decide_eq_true_2 by done.
    assert (instance (commit sameRef (commit sameRef f)) = instance (commit sameRef f))
      as Hi.
    { apply instance_eq; [apply commit_props | exact H2]. }
    rewrite Hi. split; [done|]. split; [done|]. split; [|done].
    unfold recorded. rewrite Hi. apply commit_deps.
Qed.

(** Object identity implies equality: what [Object.is] finds to be the same
    object has the same content. *)
Hypothesis sameRef_sound : forall a b, sameRef a b = true -> a = b.

Lemma dispatch_rest (f : Fiber) (e : Event) :
  atRest f ->
  atRest (dispatch sameRef f e).1 /\
  instance (dispatch sameRef f e).1 =
  instance (commit sameRef {| instance := (step (instance f) e).1;
                              titleDeps := titleDeps f;
                              assignedToDeps := assignedToDeps f |}).
Proof.
  intros (Ht & Ha & Hdt & Hda). unfold dispatch.
  pose proof (step_assignedToValidity (instance f) e) as Hav.
  destruct (step (instance f) e) as [i1 calls]. cbn [fst] in *.
  set (g := {| instance := i1; titleDeps := titleDeps f;
               assignedToDeps := assignedToDeps f |}).
  assert (titleAgrees (instance g) \/ titleDepsChanged g = true) as Pt.
  { destruct (titleDepsChanged g) eqn:Hc; [by right | left].
    unfold titleDepsChanged in Hc. cbn [titleDeps instance g] in Hc.
    rewrite Hdt in Hc. apply negb_false_iff, andb_true_iff in Hc as [H1 H2].
    apply bool_decide_eq_true in H1, H2.
    unfold titleAgrees in *. cbn [instance g]. by rewrite <- H1, <- H2. }
  assert (assignedToAgrees (instance g) \/ assignedToDepsChanged sameRef g = true) as Pa.
  { destruct (assignedToDepsChanged sameRef g) eqn:Hc; [by right | left].
    unfold assignedToDepsChanged in Hc. cbn [assignedToDeps instance g] in Hc.
    rewrite Hda in Hc. apply negb_false_iff, sameRef_sound in Hc.
    unfold assignedToAgrees in *. cbn [instance g]. rewrite Hav, <- Hc.
    by apply specFieldMachine_agrees. }
  destruct (renderLoop_rest g Pt Pa) as (R1 & R2 & R3 & R4).
  split; [exact (conj R1 (conj R2 R3)) | exact R4].
Qed.

Lemma mountFiber_rest (pr : Props) (now : Date) :
  atRest (mountFiber sameRef pr now).
Proof.
  unfold mountFiber.
  destruct (renderLoop_rest
              {| instance := mount pr now; titleDeps := None; assignedToDeps := None |})
    as (R1 & R2 & R3 & _); [by right | by right | exact (conj R1 (conj R2 R3))].
Qed.

Lemma dispatchAll_cons (f : Fiber) (e : Event) (es : list Event) :
  (dispatchAll sameRef f (e :: es)).1 =
  (dispatchAll sameRef (dispatch sameRef f e).1 es).1.
Proof.
  cbn [dispatchAll]. destruct (dispatch sameRef f e) as [f1 c1]. cbn [fst].
  by destruct (dispatchAll sameRef f1 es).
Qed.

Lemma dispatchAll_rest (es : list Event) : forall f : Fiber,
  atRest f -> atRest (dispatchAll sameRef f es).1.
Proof.
  induction es as [|e es IH]; intros f Hf; [done|].
  rewrite dispatchAll_cons. apply IH. by apply dispatch_rest.
Qed.

(** X5: under React's schedule, whatever the user does and whatever props
    arrive, the component comes to rest after every event (a further commit
    leaves the state as it is) with both validity indicators in agreement
    with their fields: error only on an invalid field, success only on a
    valid one.  This holds although the second effect does not list
    [assignedToValidity] among its dependencies. *)
Theorem schedule_keeps_validity_in_agreement
    (pr : Props) (now : Date) (es : list Event) :
  let f := (dispatchAll sameRef (mountFiber sameRef pr now) es).1 in
  titleAgrees (instance f) /\
  assignedToAgrees (instance f) /\
  state (instance (commit sameRef f)) = state (instance f).
Proof.
  cbv zeta.
  destruct (dispatchAll_rest es _ (mountFiber_rest pr now)) as (Ht & Ha & _).
  split; [done|]. split; [done|]. by apply commit_fixed.
Qed.

(** X6: under React's schedule a correction clears the error and an
    invalidation brings it back: a title typed into a form whose title is in
    error puts it in success, emptying a title that is in success puts it in
    error, and picking an assignee who is among the possible assignees
    while the assignee is in error puts it in success. *)
Theorem correction_clears_error (pr : Props) (now : Date) (es : list Event) :
  let f := (dispatchAll sameRef (mountFiber sameRef pr now) es).1 in
  (titleValidity (state (instance f)) = Error ->
   forall value, value <> "" ->
     titleValidity (state (instance (dispatch sameRef f (TitleChange value)).1))
     = Success) /\
  (titleValidity (state (instance f)) = Success ->
   titleValidity (state (instance (dispatch sameRef f (TitleChange "")).1)) = Error) /\
  (assignedToValidity (state (instance f)) = Error ->
   forall key p,
     find (possibleAssignees (props (instance f))) (azureUniqueId_is (Some key)) = Some p ->
     assignedToValidity (state (instance (dispatch sameRef f (AssigneeSelect key)).1))
     = Success).
Proof.
  cbv zeta.
  pose proof (dispatchAll_rest es _ (mountFiber_rest pr now)) as Hrest.
  set (f := (dispatchAll sameRef (mountFiber sameRef pr now) es).1) in *.
  destruct Hrest as ([Hte Hts] & [Hae Has] & Hdt & Hda).
  assert (atRest f) as Hf by exact (conj (conj Hte Hts) (conj (conj Hae Has) (conj Hdt Hda))).
  destruct f as [[p0 s0] td ad]. cbn [instance state props] in *.
  split; [|split].
  - intros Hv value Hvalue.
    destruct (dispatch_rest _ (TitleChange value) Hf) as [_ ->].
    rewrite commit_state. cbv zeta.
    destruct s0 as [t v a av d p ds]. cbn in *. subst v.
    specialize (Hte eq_refl). apply checkIfTitleValid_empty in Hte. subst t.
    unfold titleDepsChanged. cbn. subst td.
    rewrite (bool_decide_eq_false_2 ("" = value)) by done. cbn.
    by destruct value.
  - intros Hv.
    destruct (dispatch_rest _ (TitleChange "") Hf) as [_ ->].
    rewrite commit_state. cbv zeta.
    destruct s0 as [t v a av d p ds]. cbn in *. subst v.
    specialize (Hts eq_refl). apply checkIfTitleValid_nonempty in Hts.
    unfold titleDepsChanged. cbn. subst td.
    rewrite (bool_decide_eq_false_2 (t = "")) by done. by cbn.
  - intros Hv key p Hp.
    destruct (dispatch_rest _ (AssigneeSelect key) Hf) as [_ ->].
    rewrite commit_state. cbv zeta.
    destruct s0 as [t v a av d pri ds]. cbn in *. subst av.
    specialize (Hae eq_refl). apply checkIfParticipantValid_None in Hae.
    unfold assignedToDepsChanged. cbn. subst ad.
    unfold assignedTo in *. cbn in *. rewrite Hae, Hp.
    destruct (sameRef None (Some p)) eqn:Hsame; [|done].
    by apply sameRef_sound in Hsame.
Qed.

End ScheduleProperties.

(** ** ActionCreateForm: what is shown *)

Section FormViewProperties.

Import ActionCreateForm ReactSchedule ActionCreateFormView.

Variable sameRef : option Participant.t -> option Participant.t -> bool.

(** Commits change neither the props nor the cells that hold the user's
    input. *)
Lemma settle_input (n : nat) : forall f : Fiber,
  props (instance (settle sameRef n f)) = props (instance f) /\
  title (state (instance (settle sameRef n f))) = title (state (instance f)) /\
  assignedToId (state (instance (settle sameRef n f))) = assignedToId (state (instance f)).
Proof.
  induction n as [|n IH]; intros f; [done|]. cbn [settle].
  assert (props (instance (commit sameRef f)) = props (instance f) /\
          title (state (instance (commit sameRef f))) = title (state (instance f)) /\
          assignedToId (state (instance (commit sameRef f)))
          = assignedToId (state (instance f))) as (H1 & H2 & H3).
  { rewrite commit_state. by repeat split. }
  case_bool_decide; [done|].
  destruct (IH (commit sameRef f)) as (I1 & I2 & I3).
  by rewrite I1, I2, I3.
Qed.

(** An error on an invalid field stays through any number of commits. *)
Lemma settle_title_error (n : nat) : forall f : Fiber,
  checkIfTitleValid (title (state (instance f))) = false ->
  titleValidity (state (instance f)) = Error ->
  titleValidity (state (instance (settle sameRef n f))) = Error.
Proof.
  induction n as [|n IH]; intros f Hinv Herr; [done|]. cbn [settle].
  assert (titleValidity (state (instance (commit sameRef f))) = Error) as Hc.
  { rewrite commit_state. cbv zeta. cbn [titleValidity].
    rewrite Hinv, Herr. by destruct (titleDepsChanged f). }
  case_bool_decide; [done|]. apply IH; [|done].
  rewrite commit_state. cbv zeta. by cbn [title].
Qed.

Lemma settle_assignedTo_error (n : nat) : forall f : Fiber,
  checkIfParticipantValid (assignedTo (props (instance f)) (state (instance f))) = false ->
  assignedToValidity (state (instance f)) = Error ->
  assignedToValidity (state (instance (settle sameRef n f))) = Error.
Proof.
  induction n as [|n IH]; intros f Hinv Herr; [done|]. cbn [settle].
  assert (assignedToValidity (state (instance (commit sameRef f))) = Error) as Hc.
  { rewrite commit_state. cbv zeta. cbn [assignedToValidity].
    rewrite Hinv, Herr. by destruct (assignedToDepsChanged sameRef f). }
  case_bool_decide; [done|]. apply IH; [|done].
  rewrite commit_props, commit_state. cbv zeta. unfold assignedTo in *.
  by cbn [assignedToId].
Qed.

(** X7: a Create click on a form without a title calls nothing and, once
    React has come to rest, the title field is shown in error with the
    helper text "required" and the error icon; a Create click without a
    resolved assignee calls nothing and the dropdown is shown in error. *)
Theorem failed_submit_shows_required
    (f : Fiber) (possibleAssigneesDetails : list PersonDetails.t) (now : Date) :
  let r := dispatch sameRef f (CreateClick now) in
  let v := view (props (instance r.1)) possibleAssigneesDetails (state (instance r.1)) in
  (title (state (instance f)) = "" ->
   r.2 = [] /\ titleVariant v = Error /\ titleHelperText v = "required" /\
   titleHelperIcon v = true /\ title (state (instance r.1)) = "") /\
  (assignedTo (props (instance f)) (state (instance f)) = None ->
   r.2 = [] /\ assignedToError v = true /\ assignedToErrorMessage v = "required").
Proof.
  cbv zeta. unfold dispatch.
  pose proof (step_calls (instance f) (CreateClick now)) as Hcalls.
  pose proof (step_titleValidity (instance f) (CreateClick now)) as Htv.
  pose proof (step_assignedToValidity (instance f) (CreateClick now)) as Hav.
  assert (props (step (instance f) (CreateClick now)).1 = props (instance f) /\
          title (state (step (instance f) (CreateClick now)).1) = title (state (instance f)) /\
          assignedToId (state (step (instance f) (CreateClick now)).1)
          = assignedToId (state (instance f))) as (Hp & Ht & Hid).
  { destruct f as [[pr s] td ad]. unfold step. cbn [instance state props handlerOf].
    rewrite onLocalCreateClick_run.
    by destruct (checkIfTitleValid (title s)),
                (checkIfParticipantValid (assignedTo pr s)). }
  destruct (step (instance f) (CreateClick now)) as [i1 calls]. cbn [fst snd] in *.
  set (g := {| instance := i1; titleDeps := titleDeps f;
               assignedToDeps := assignedToDeps f |}).
  destruct (settle_input 3 g) as (Sp & St & Sid). cbn [instance g] in Sp, St, Sid.
  unfold renderLoop. split.
  - intros Hempty. apply checkIfTitleValid_empty in Hempty as Hinv.
    rewrite Hinv in Hcalls, Htv. cbn in Hcalls, Htv.
    assert (titleValidity (state (instance (settle sameRef 3 g))) = Error) as He.
    { apply settle_title_error; cbn [instance g]; [by rewrite Ht | done]. }
    unfold view. cbn [titleVariant titleHelperText titleHelperIcon].
    rewrite He, St, Ht. by repeat split.
  - intros Hnone.
    assert (checkIfParticipantValid (assignedTo (props (instance f)) (state (instance f)))
            = false) as Hinv by (by rewrite Hnone).
    rewrite Hinv in Hcalls, Hav. rewrite andb_false_r in Hcalls. cbn in Hav.
    assert (assignedToValidity (state (instance (settle sameRef 3 g))) = Error) as He.
    { apply settle_assignedTo_error; cbn [instance g]; [|done].
      unfold assignedTo in *. by rewrite Hp, Hid. }
    unfold view. cbn [assignedToError assignedToErrorMessage].
    rewrite He. by repeat split.
Qed.

End FormViewProperties.

Section OptionProperties.

Import ActionCreateFormView.




End OptionProperties.

(** ** QuestionAndAnswerForm: the support notes *)

Section SupportNoteProperties.

Import QuestionAndAnswerView.

Lemma split_nonempty (sep : Ascii.ascii) (s : string) : split sep s <> [].
Proof.
  destruct s as [|c s]; [done|]. cbn [split].
  case_bool_decide; [done|]. by destruct (split sep s).
Qed.

(** Joining the pieces with the separator gives the string back. *)
Lemma join_split (sep : Ascii.ascii) (s : string) :
  join (String sep "") (split sep s) = s.
Proof.
  induction s as [|c s IH]; [done|]. cbn [split].
  pose proof (split_nonempty sep s) as Hne.
  case_bool_decide as Hc.
  - subst c. destruct (split sep s) as [|part parts]; [done|].
    cbn [join]. cbn [join] in IH. by rewrite IH.
  - destruct (split sep s) as [|part parts]; [done|].
    destruct parts as [|part' parts]; cbn [join] in *; by rewrite <- IH.
Qed.

(** No piece contains the separator. *)
Lemma split_free (sep : Ascii.ascii) (s part : string) :
  part ∈ split sep s -> sep ∉ String.list_ascii_of_string part.
Proof.
  revert part. induction s as [|c s IH]; intros part; cbn [split].
  - intros ->%list_elem_of_singleton. apply not_elem_of_nil.
  - case_bool_decide as Hc.
    + intros [-> | Hin]%elem_of_cons; [apply not_elem_of_nil | by apply IH].
    + pose proof (split_nonempty sep s) as Hne.
      destruct (split sep s) as [|p ps]; [done|].
      intros [-> | Hin]%elem_of_cons.
      * cbn. apply not_elem_of_cons. split; [congruence|]. apply IH. by left.
      * apply IH. by right.
Qed.

(** There is one piece more than there are separators. *)
Lemma split_length (sep : Ascii.ascii) (s : string) :
  length (split sep s)
  = S (length (filter (fun c => c = sep) (String.list_ascii_of_string s))).
Proof.
  induction s as [|c s IH]; [done|]. cbn [split String.list_ascii_of_string].
  pose proof (split_nonempty sep s) as Hne.
  case_bool_decide as Hc.
  - rewrite filter_cons_True by done. cbn [length]. by rewrite IH.
  - rewrite filter_cons_False by done.
    destruct (split sep s) as [|p ps]; [done|]. by rewrite <- IH.
Qed.

Lemma children_supportNoteParts (question : Question.t) :
  children <$> supportNoteParts question = split newline (Question.supportNotes question).
Proof.
  unfold supportNoteParts.
  induction (split newline (Question.supportNotes question)) as [|p ps IH]; [done|].
  cbn. f_equal. apply IH.
Qed.

Lemma key_supportNoteParts (question : Question.t) :
  key <$> supportNoteParts question
  = (fun part => (Question.id question ++ part)%string)
      <$> split newline (Question.supportNotes question).
Proof.
  unfold supportNoteParts.
  induction (split newline (Question.supportNotes question)) as [|p ps IH]; [done|].
  cbn. f_equal. apply IH.
Qed.

(** X9: the support notes are shown as the lines of the text: the lines
    joined by newlines are the text again, no line holds a newline, and
    there is one line more than there are newlines, so even an empty text
    gives one (empty) line. *)
Theorem supportNoteParts_are_the_lines (question : Question.t) :
  join (String newline "") (children <$> supportNoteParts question)
    = Question.supportNotes question /\
  (forall note, note ∈ supportNoteParts question ->
     newline ∉ String.list_ascii_of_string (children note)) /\
  length (supportNoteParts question)
    = S (length (filter (fun c => c = newline)
                   (String.list_ascii_of_string (Question.supportNotes question)))) /\
  (Question.supportNotes question = "" ->
   children <$> supportNoteParts question = [""]).
Proof.
  split; [|split; [|split]].
  - rewrite children_supportNoteParts. apply join_split.
  - intros note Hin. apply (split_free newline (Question.supportNotes question)).
    rewrite <- children_supportNoteParts. by apply list_elem_of_fmap_2.
  - rewrite <- split_length, <- children_supportNoteParts. by rewrite length_fmap.
  - intros H. by rewrite children_supportNoteParts, H.
Qed.

Lemma append_inj_r (p a b : string) : (p ++ a)%string = (p ++ b)%string -> a = b.
Proof. induction p as [|c p IH]; cbn; [done|]. intros [= H]. by apply IH. Qed.

(** X10: two support note lines get the same React key exactly when they
    have the same text; so the keys of the lines are distinct if and only if
    the lines are. *)
Theorem supportNote_keys_distinct_iff (question : Question.t) :
  (forall a b, a ∈ supportNoteParts question -> b ∈ supportNoteParts question ->
     (key a = key b <-> children a = children b)) /\
  (NoDup (key <$> supportNoteParts question)
   <-> NoDup (split newline (Question.supportNotes question))).
Proof.
  split.
  - unfold supportNoteParts. intros a b Ha Hb.
    apply list_elem_of_fmap in Ha as (pa & -> & _).
    apply list_elem_of_fmap in Hb as (pb & -> & _). cbn.
    split; [apply append_inj_r | by intros ->].
  - rewrite key_supportNoteParts.
    assert (Inj (=) (=) (fun part : string => (Question.id question ++ part)%string))
      as Hinj.
    { intros a b. apply append_inj_r. }
    apply (NoDup_fmap _).
Qed.

Example supportNoteParts_sample :
  supportNoteParts MoreSamples.question =
  [ mkSupportNote "q-1Check the log" "Check the log";
    mkSupportNote "q-1" "";
    mkSupportNote "q-1Check the log" "Check the log" ] /\
  ~ NoDup (key <$> supportNoteParts MoreSamples.question).
Proof.
  split; [reflexivity|]. intros H. vm_compute in H.
  apply NoDup_cons in H as [H _]. apply H. right. by left.
Qed.

End SupportNoteProperties.

(** ** QuestionAndAnswerForm: edits and the parent's re-render *)

Section AnswerEditProperties.

Import QuestionAndAnswerForm QuestionAndAnswerView.

(** X11: when the parent renders the panel again with the answer it was
    handed, a severity edit followed by a text edit leaves the panel showing
    both new values, the same as the two edits in the other order; every
    other property of the answer, and everything else the panel shows, is as
    before. *)
Theorem edits_compose_across_renders
    (props : Props) (sev : Severity) (text : string) :
  let p1 := afterCalls props (onSeveritySelected props sev) in
  let p2 := afterCalls p1 (onMarkdownChange p1 text) in
  let q1 := afterCalls props (onMarkdownChange props text) in
  let q2 := afterCalls q1 (onSeveritySelected q1 sev) in
  p2 = q2 /\
  severity (view p2) = Some (JString sev) /\
  markdown (view p2) = Some (JString text) /\
  (forall k, k <> "severity" -> k <> "text" -> answer p2 !! k = answer props !! k) /\
  (chipOrganization (view p2), number (view p2), heading (view p2),
   supportNotes (view p2), disable (view p2))
  = (chipOrganization (view props), number (view props), heading (view props),
     supportNotes (view props), disable (view props)).
Proof.
  cbv zeta. unfold afterCalls, onSeveritySelected, onMarkdownChange, withAnswer,
    spreadWith, view. cbn.
  split; [|split; [|split; [|split]]].
  - f_equal. by apply insert_insert_ne.
  - rewrite lookup_insert_ne by done. apply lookup_insert_eq.
  - apply lookup_insert_eq.
  - intros k Hs Ht. by rewrite !lookup_insert_ne.
  - done.
Qed.

(** X12: each callback spreads the answer of the render it belongs to.  Two
    edits made on the same render therefore do not add up: the argument of
    the second call carries the first field's old value, and a parent that
    keeps what it was last handed loses the first edit. *)
Theorem edits_on_one_render_overwrite
    (props : Props) (sev : Severity) (text : string) :
  let p := afterCalls props (onSeveritySelected props sev ++ onMarkdownChange props text) in
  answer p = spreadWith (answer props) "text" (JString text) /\
  severity (view p) = severity (view props) /\
  markdown (view p) = Some (JString text).
Proof.
  cbv zeta. unfold afterCalls, onSeveritySelected, onMarkdownChange, withAnswer,
    spreadWith, view. cbn.
  split; [done|]. split.
  - by rewrite lookup_insert_ne.
  - apply lookup_insert_eq.
Qed.

Example edits_on_one_render_sample :
  severity (view (afterCalls Samples.panelProps
                    (onSeveritySelected Samples.panelProps "HIGH"
                     ++ onMarkdownChange Samples.panelProps "Tested in June")))
  = Some (JString "LOW").
Proof. vm_compute. reflexivity. Qed.

End AnswerEditProperties.

(** ** NominationView: more on the gates and the render *)

Section GateFacts.

Import NominationView NominationViewFacts.

Variable canProgress canAdd : Role -> bool.

Lemma find_app_found {A} (l l' : list A) (p : A -> bool) (x : A) :
  find l p = Some x -> find (l ++ l') p = Some x.
Proof.
  unfold find. induction l as [|a l IH]; [done|]. cbn.
  destruct (p a); [done | apply IH].
Qed.



(** X15: the gates go by the first entry with the user's id, so
    participants added at the end of the list change nothing for anybody
    who is on the list already. *)
Theorem gates_unchanged_by_appended_participants
    (evaluation : Evaluation.t) (added : list Participant.t) (uid : string) :
  (exists p, p ∈ Evaluation.participants evaluation /\ Participant.azureUniqueId p = uid) ->
  let evaluation' :=
    withParticipants evaluation (Evaluation.participants evaluation ++ added) in
  disableProgression canProgress evaluation' uid
    = disableProgression canProgress evaluation uid /\
  disableAddParticipant canAdd evaluation' uid
    = disableAddParticipant canAdd evaluation uid.
Proof.
  intros (p & Hin & Hid). cbv zeta.
  destruct (loggedInUser evaluation uid) as [q|] eqn:Hq.
  - assert (loggedInUser (withParticipants evaluation
                            (Evaluation.participants evaluation ++ added)) uid = Some q)
      as Hq' by (by apply find_app_found).
    unfold disableProgression, disableAddParticipant.
    fold (loggedInUser evaluation uid).
    fold (loggedInUser (withParticipants evaluation
                          (Evaluation.participants evaluation ++ added)) uid).
    by rewrite Hq, Hq'.
  - exfalso. apply find_None_all with (x := p) in Hq; [|done].
    by apply bool_decide_eq_false in Hq.
Qed.

(** X16: the loaded view is rendered only when the participant query is not
    loading, neither the mutation nor the query has an error, and the query
    has data; the table and the dialog then show the queried participants,
    while the two buttons go by the evaluation handed in as prop: what the
    query returned plays no part in them. *)
Theorem loaded_view_inversion (evaluation : Evaluation.t) (h : Hooks) (page : Page) :
  render canProgress canAdd evaluation h = Loaded page ->
  loadingQuery h = false /\
  errorMutation h = None /\
  errorQuery h = None /\
  participants h = Some (tableParticipants page) /\
  currentNominees page = tableParticipants page /\
  dialogOpen page = panelOpen h /\
  evaluationTitle page = Evaluation.name evaluation /\
  (forall queried,
     exists page',
       render canProgress canAdd evaluation (withQueried h (Some queried)) = Loaded page' /\
       tableParticipants page' = queried /\
       finishNominationDisabled page' = finishNominationDisabled page /\
       addPersonDisabled page' = addPersonDisabled page).
Proof.
  unfold render. destruct h as [po em lq ps eq uid]. cbn.
  destruct lq; [done|]. destruct em; [done|]. destruct eq; [done|].
  destruct ps as [ps|]; [|done]. intros [= <-]. cbn.
  repeat split. intros queried. by eexists.
Qed.

End GateFacts.

(** ** NominationView: what the cache update leaves alone *)

Section UpdateFacts.

Import NominationView NominationViewFacts.

Variable created : Participant.t.

Lemma modifyFields_keys (name : string)
    (modifier : list Reference -> CacheOp (list Reference))
    (fields : list (StoreFieldName * list Reference)) :
  forall c : Cache, (modifyFields name modifier fields c).1.*1 = fields.*1.
Proof.
  induction fields as [|[k v] rest IH]; intros c; [done|].
  rewrite modifyFields_cons.
  destruct (if bool_decide (fieldName k = name) then modifier v c else (v, c))
    as [v' c1].
  specialize (IH c1). destruct (modifyFields name modifier rest c1) as [rest' c2].
  cbn in *. by rewrite IH.
Qed.

Lemma modifyFields_no_field (name : string)
    (modifier : list Reference -> CacheOp (list Reference))
    (fields : list (StoreFieldName * list Reference)) :
  (forall k v, (k, v) ∈ fields -> fieldName k <> name) ->
  forall c : Cache, modifyFields name modifier fields c = (fields, c).
Proof.
  induction fields as [|[k v] rest IH]; intros Hno c; [done|].
  rewrite modifyFields_cons.
  rewrite bool_decide_eq_false_2 by (apply (Hno k v); by left).
  rewrite IH; [done|]. intros k' v' Hin. apply (Hno k' v'). by right.
Qed.

(** X17: when no participants list is cached, the update leaves the cache
    exactly as it is: the created participant is not even written. *)
Theorem update_without_cached_list (c : Cache) :
  (forall k v, (k, v) ∈ rootQuery c -> fieldName k <> "participants") ->
  (update created c).2 = c /\
  forall evaluationId,
    readParticipants evaluationId (update created c).2 = None.
Proof.
  intros Hno.
  assert ((update created c).2 = c) as Hsame.
  { unfold update, modify. rewrite modifyFields_no_field by done. by destruct c. }
  split; [done|]. intros evaluationId. rewrite Hsame. unfold readParticipants.
  destruct (lookupField (participantsField evaluationId) (rootQuery c)) as [refs|] eqn:Hl;
    [|done].
  apply lookupField_elem in Hl. by destruct (Hno _ _ Hl).
Qed.

(** X18: the update adds the new reference to the participants list of
    every evaluation that has one in the cache, whichever evaluation the
    participant was created for, and leaves everything else alone: the root
    query keeps its fields in their order, fields of other names keep their
    value, and no object but the one under the created participant's id
    changes. *)
Theorem update_touches_participants_lists_only (c : Cache) :
  let c' := (update created c).2 in
  fieldKeys c' = fieldKeys c /\
  (forall evaluationId refs,
     lookupField (participantsField evaluationId) (rootQuery c) = Some refs ->
     lookupField (participantsField evaluationId) (rootQuery c')
     = Some (refs ++ [makeReference (Participant.id created)])) /\
  (forall k, fieldName k <> "participants" ->
     lookupField k (rootQuery c') = lookupField k (rootQuery c)) /\
  (forall id, id <> Participant.id created -> entities c' !! id = entities c !! id).
Proof.
  cbv zeta. unfold update, modify, fieldKeys.
  pose proof (modifyFields_keys "participants" (participantsModifier created)
                (rootQuery c) c) as Hkeys.
  pose proof (modifyFields_participantsModifier created "participants" (rootQuery c) c)
    as H. cbn zeta in H.
  destruct (modifyFields "participants" (participantsModifier created) (rootQuery c) c)
    as [fields c1].
  destruct H as (Hl & Hc & _). cbn [fst snd rootQuery entities] in *.
  split; [done|]. split; [|split].
  - intros evaluationId refs Hrefs. rewrite Hl, Hrefs. done.
  - intros k Hk. rewrite Hl. rewrite bool_decide_eq_false_2 by done.
    by destruct (lookupField k (rootQuery c)).
  - intros id Hid. destruct Hc as [-> | ->]; [done|].
    cbn. by rewrite lookup_insert_ne.
Qed.

End UpdateFacts.

(** ** The further properties on the sample data *)

Section FurtherSamples.

Import ActionCreateForm ReactSchedule NominationView NominationViewFacts.

Lemma sameRecord_sound (a b : option Participant.t) :
  MoreSamples.sameRecord a b = true -> a = b.
Proof. unfold MoreSamples.sameRecord. apply bool_decide_eq_true_1. Defined.

(** The session under React's schedule: one action, for Bob; at the end the
    title is shown in error and the assignee in success. *)
Example session_under_schedule :
  let r := dispatchAll MoreSamples.sameRecord
             (mountFiber MoreSamples.sameRecord Samples.formProps 1700000000000%Z)
             MoreSamples.session in
  r.2 = [ Action.mk "" "Replace valve" (Some Samples.bob) "" High 1700000000000%Z
            false 1700000002000%Z [] Samples.question ] /\
  state (instance r.1)
  = mkState "" Error (Some "oid-bob") Success 1700000000000%Z High "".
Proof. cbv zeta. split; vm_compute; reflexivity. Qed.

(** The action of the session is well formed. *)
Lemma submitted_actions_well_formed_witness :
  Action.title (Action.mk "" "Replace valve" (Some Samples.bob) "" High 1700000000000%Z
                  false 1700000002000%Z [] Samples.question) <> "" /\
  is_Some (Some Samples.bob) /\ "" = "" /\ false = false /\ @nil Note = [].
Proof.
  apply (submitted_actions_well_formed Samples.mounted MoreSamples.session
           (Action.mk "" "Replace valve" (Some Samples.bob) "" High 1700000000000%Z
              false 1700000002000%Z [] Samples.question)).
  vm_compute. left.
Defined.

(** Two clicks on the filled form. *)
Lemma create_twice_submits_twice_witness :
  exists action,
    steps (mkInstance Samples.formProps Samples.filled)
      [CreateClick 1700000001000%Z; CreateClick 1700000002000%Z] =
    (mkInstance Samples.formProps Samples.filled,
     [ action;
       Action.mk (Action.id action) (Action.title action) (Action.assignedTo action)
         (Action.description action) (Action.priority action) (Action.dueDate action)
         (Action.onHold action) 1700000002000%Z (Action.notes action)
         (Action.question action) ]) /\
    Action.createDate action = 1700000001000%Z.
Proof.
  apply (create_twice_submits_twice Samples.formProps Samples.filled).
  - discriminate.
  - exists Samples.alice. reflexivity.
Defined.

(** The session ends at rest and in agreement. *)
Lemma schedule_keeps_validity_in_agreement_witness :
  let f := (dispatchAll MoreSamples.sameRecord
              (mountFiber MoreSamples.sameRecord Samples.formProps 1700000000000%Z)
              MoreSamples.session).1 in
  titleAgrees (instance f) /\
  assignedToAgrees (instance f) /\
  state (instance (commit MoreSamples.sameRecord f)) = state (instance f).
Proof.
  exact (schedule_keeps_validity_in_agreement MoreSamples.sameRecord sameRecord_sound
           Samples.formProps 1700000000000%Z MoreSamples.session).
Defined.

(** After the session the title is in error; typing a title clears it. *)
Lemma correction_clears_error_witness :
  titleValidity
    (state (instance
       (dispatch MoreSamples.sameRecord
          (dispatchAll MoreSamples.sameRecord
             (mountFiber MoreSamples.sameRecord Samples.formProps 1700000000000%Z)
             MoreSamples.session).1
          (TitleChange "Replace pump")).1))
  = Success.
Proof.
  apply (proj1 (correction_clears_error MoreSamples.sameRecord sameRecord_sound
                  Samples.formProps 1700000000000%Z MoreSamples.session)).
  - vm_compute. reflexivity.
  - discriminate.
Defined.



(** Dave joins the sample evaluation: nothing changes for Bob. *)
Lemma gates_unchanged_by_appended_participants_witness :
  let evaluation' :=
    withParticipants Samples.evaluation
      (Evaluation.participants Samples.evaluation ++ [Samples.dave]) in
  disableProgression RoleBasedAccess.participantCanProgressEvaluation evaluation' "oid-bob"
    = disableProgression RoleBasedAccess.participantCanProgressEvaluation
        Samples.evaluation "oid-bob" /\
  disableAddParticipant RoleBasedAccess.participantCanAddParticipant evaluation' "oid-bob"
    = disableAddParticipant RoleBasedAccess.participantCanAddParticipant
        Samples.evaluation "oid-bob".
Proof.
  apply (gates_unchanged_by_appended_participants
           RoleBasedAccess.participantCanProgressEvaluation
           RoleBasedAccess.participantCanAddParticipant
           Samples.evaluation [Samples.dave] "oid-bob").
  exists Samples.bob. split; [|reflexivity]. right. left.
Defined.

(** The loaded sample view. *)
Lemma loaded_view_inversion_witness :
  loadingQuery Samples.loaded = false /\
  errorMutation Samples.loaded = None /\
  errorQuery Samples.loaded = None /\
  participants Samples.loaded = Some [Samples.alice; Samples.bob; Samples.carol].
Proof.
  pose proof (loaded_view_inversion
                RoleBasedAccess.participantCanProgressEvaluation
                RoleBasedAccess.participantCanAddParticipant
                Samples.evaluation Samples.loaded
                (mkPage "Platform A" false false
                   [Samples.alice; Samples.bob; Samples.carol] false
                   [Samples.alice; Samples.bob; Samples.carol])
                eq_refl) as (H1 & H2 & H3 & H4 & _).
  exact (conj H1 (conj H2 (conj H3 H4))).
Defined.

(** A cache that holds the list of evaluations only. *)
Lemma update_without_cached_list_witness :
  (update Samples.dave (mkCache ∅ [(mkStoreFieldName "evaluations" "", [])])).2
  = mkCache ∅ [(mkStoreFieldName "evaluations" "", [])].
Proof.
  apply (update_without_cached_list Samples.dave
           (mkCache ∅ [(mkStoreFieldName "evaluations" "", [])])).
  intros k v Hin. simpl in Hin.
  apply list_elem_of_singleton in Hin as [= -> ->]. discriminate.
Defined.

End FurtherSamples.
